(** * deepsparse.timing.pipeline_timer: InferenceTimer and PipelineTimer

    A shallow embedding of [src/deepsparse/timing/pipeline_timer.py].

    - The two dictionaries of an [InferenceTimer] are finite maps from stage
      names to lists of clock readings.
    - [time.perf_counter()] is an input of the program: every operation that
      reads the clock takes the reading as its argument [now].
    - Python floats are kept abstract: the embedding is parametric in the type
      [F] of clock readings and in the three float operations the module
      uses (subtraction, the builtin [sum], division by a length).  Exact
      rationals instantiate it where a concrete run is evaluated.
    - A method that may raise returns the object as the call left it together
      with an [outcome]: a mutation made before a [raise] stays visible. *)

From stdpp Require Import gmap strings list fin_maps fin_sets.
From Stdlib Require Import QArith.

Local Open Scope nat_scope.
Local Open Scope stdpp_scope.
Set Warnings "-clear-no-such-hyp".

(** ** Exceptions and outcomes *)

Inductive exn : Set :=
  | ValueError
  | KeyError
  | IndexError
  | ZeroDivisionError.

Inductive outcome (A : Type) : Type :=
  | Return (a : A)
  | Raise (e : exn).
Arguments Return {A} a.
Arguments Raise {A} e.

#[global] Instance outcome_ret : MRet outcome := λ A a, Return a.
#[global] Instance outcome_bind : MBind outcome := λ A B k m,
  match m with
  | Return a => k a
  | Raise e => Raise e
  end.

Definition raises {A} (o : outcome A) : bool :=
  match o with
  | Return _ => false
  | Raise _ => true
  end.

(** ** Float operations used by the module *)

Class FloatOps (F : Type) : Type := {
  fsub : F → F → F;       (* [a - b] *)
  fsum : list F → F;      (* the builtin [sum(xs)] *)
  fdiv : F → nat → F      (* [a / n] for an [int] [n] that is not zero *)
}.

(** [sum(xs) / len(xs)]: dividing by the length of an empty list raises. *)
Definition average `{FloatOps F} (xs : list F) : outcome F :=
  if decide (length xs = 0) then Raise ZeroDivisionError
  else Return (fdiv (fsum xs) (length xs)).

(** A dictionary comprehension [{k: f(k) for k in keys}]: the first [f(k)]
    that raises aborts the comprehension.  (Which key comes first is the
    iteration order of [keys]; only the success case and the fact of a
    failure are used below.) *)
Definition dict_comp {B} (f : string → outcome B) (keys : gset string)
    : outcome (gmap string B) :=
  set_fold (λ k acc, m ← acc; v ← f k; mret (<[k := v]> m)) (mret ∅) keys.

(** ** class InferenceTimer *)

Module InferenceTimer.
Section defs.
Context {F : Type}.

Record t : Type := mk {
  _staged_start_times : gmap string (list F);
  _staged_stop_times : gmap string (list F)
}.

(** [__init__] *)
Definition init : t := mk ∅ ∅.

(** [stages]: the keys of [_staged_start_times]. *)
Definition stages (self : t) : gset string := dom (_staged_start_times self).

Definition has_stage (self : t) (stage : string) : bool :=
  bool_decide (stage ∈ stages self).

Definition clear (self : t) : t * outcome () :=
  (mk ∅ ∅, Return ()).

Definition start (now : F) (stage : string) (self : t) : t * outcome () :=
  let self :=
    match _staged_start_times self !! stage with
    | None => mk (<[stage := []]> (_staged_start_times self))
                 (<[stage := []]> (_staged_stop_times self))
    | Some _ => self
    end in
  match _staged_start_times self !! stage, _staged_stop_times self !! stage with
  | Some starts, Some stops =>
      if decide (length starts ≠ length stops) then (self, Raise ValueError)
      else (mk (<[stage := starts ++ [now]]> (_staged_start_times self))
               (_staged_stop_times self), Return ())
  | _, _ => (self, Raise KeyError)
  end.

Definition stop (now : F) (stage : string) (self : t) : t * outcome () :=
  match _staged_start_times self !! stage with
  | None => (self, Raise ValueError)
  | Some starts =>
      match _staged_stop_times self !! stage with
      | None => (self, Raise KeyError)
      | Some stops =>
          if decide (length starts ≠ length stops + 1)
          then (self, Raise ValueError)
          else (mk (_staged_start_times self)
                   (<[stage := stops ++ [now]]> (_staged_stop_times self)),
                Return ())
      end
  end.

Context `{!FloatOps F}.

(** [[stops[i] - starts[i] for i in range(len(starts))]] *)
Definition deltas (starts stops : list F) : outcome (list F) :=
  mapM (λ i, match stops !! i, starts !! i with
             | Some b, Some a => Return (fsub b a)
             | _, _ => Raise IndexError
             end) (seq 0 (length starts)).

Definition stage_times (self : t) (stage : string) : outcome (list F) :=
  match _staged_start_times self !! stage with
  | None => Raise ValueError
  | Some starts =>
      match _staged_stop_times self !! stage with
      | None => Raise KeyError
      | Some stops =>
          if decide (length starts ≠ length stops) then Raise ValueError
          else deltas starts stops
      end
  end.

Definition stage_average_time (self : t) (stage : string) : outcome F :=
  times ← stage_times self stage; average times.

Definition times (self : t) : outcome (gmap string F) :=
  dict_comp (stage_average_time self) (stages self).

Definition all_times (self : t) : outcome (gmap string (list F)) :=
  dict_comp (stage_times self) (stages self).
End defs.
Arguments t F : clear implicits.
End InferenceTimer.

(** ** class PipelineTimer *)

Module PipelineTimer.
Section defs.
Context {F : Type}.

Record t : Type := mk {
  _multi_inference : bool;
  _enabled : bool;
  _timers : list (InferenceTimer.t F)
}.

(** [__init__(enabled=True, multi_inference=False)] *)
Definition init (enabled multi_inference : bool) : t :=
  mk multi_inference enabled [].

Definition enabled (self : t) : bool := _enabled self.
Definition multi_inference (self : t) : bool := _multi_inference self.
Definition inferences (self : t) : list (InferenceTimer.t F) := _timers self.

(** The setters of the two properties. *)
Definition set_enabled (value : bool) (self : t) : t :=
  mk (_multi_inference self) value (_timers self).
Definition set_multi_inference (value : bool) (self : t) : t :=
  mk value (_enabled self) (_timers self).

(** Rebinding the contents of the list [_timers]. *)
Definition set_timers (self : t) (timers : list (InferenceTimer.t F)) : t :=
  mk (_multi_inference self) (_enabled self) timers.

(** [self._timers[-1] if self._timers else None] *)
Definition current_inference (self : t) : option (InferenceTimer.t F) :=
  last (_timers self).

(** The union of the stages of every tracked timer. *)
Definition stages (self : t) : gset string :=
  foldl (λ stages timer, stages ∪ InferenceTimer.stages timer) ∅ (_timers self).

(** [if not self.current_inference: self._timers.append(InferenceTimer())];
    an [InferenceTimer] object is always truthy, so the test is on [None]. *)
Definition _check_start_inference (self : t) : t :=
  match current_inference self with
  | None => set_timers self (_timers self ++ [InferenceTimer.init])
  | Some _ => self
  end.

(** [self._timers[i].method(...)]: the method mutates the timer in place. *)
Definition on_timer {A} (i : nat)
    (method : InferenceTimer.t F → InferenceTimer.t F * outcome A)
    (self : t) : t * outcome A :=
  match _timers self !! i with
  | None => (self, Raise IndexError)
  | Some timer =>
      let '(timer, r) := method timer in
      (set_timers self (<[i := timer]> (_timers self)), r)
  end.

Definition reset (self : t) : t * outcome () :=
  if negb (_enabled self) then (self, Return ())
  else
    let self := _check_start_inference self in
    if multi_inference self
    then (set_timers self (_timers self ++ [InferenceTimer.init]), Return ())
    else on_timer 0 InferenceTimer.clear self.

Definition start_inference_stage (now : F) (stage : string) (self : t)
    : t * outcome () :=
  if negb (_enabled self) then (self, Return ())
  else
    let self := _check_start_inference self in
    on_timer (pred (length (_timers self))) (InferenceTimer.start now stage) self.

Definition stop_inference_stage (now : F) (stage : string) (self : t)
    : t * outcome () :=
  if negb (_enabled self) then (self, Return ())
  else
    let self := _check_start_inference self in
    on_timer (pred (length (_timers self))) (InferenceTimer.stop now stage) self.

Context `{!FloatOps F}.

(** The inner loop of [all_times]: for each [stage, times] of one timer,
    [all_times[stage].extend(times)]. *)
Definition extend_all (all_times timer_times : gmap string (list F))
    : outcome (gmap string (list F)) :=
  map_fold (λ stage times acc,
    m ← acc;
    match m !! stage with
    | Some l => mret (<[stage := l ++ times]> m)
    | None => Raise KeyError
    end) (mret all_times) timer_times.

Definition all_times (self : t) : outcome (gmap string (list F)) :=
  foldl (λ acc timer,
           m ← acc;
           timer_times ← InferenceTimer.all_times timer;
           extend_all m timer_times)
        (mret (gset_to_gmap [] (stages self))) (_timers self).

Definition times (self : t) : outcome (gmap string F) :=
  all_times ← all_times self;
  dict_comp (λ stage,
    match all_times !! stage with
    | Some l => average l
    | None => Raise KeyError
    end) (stages self).
End defs.
Arguments t F : clear implicits.
End PipelineTimer.

(** ** Sequences of calls

    A caller may catch an exception and go on: a sequence of calls threads the
    object through every call and collects the outcomes. *)

Inductive timer_call (F : Type) : Type :=
  | Start (now : F) (stage : string)
  | Stop (now : F) (stage : string)
  | Clear.
Arguments Start {F} now stage.
Arguments Stop {F} now stage.
Arguments Clear {F}.

Definition timer_step {F} (c : timer_call F) : InferenceTimer.t F → InferenceTimer.t F * outcome () :=
  match c with
  | Start now stage => InferenceTimer.start now stage
  | Stop now stage => InferenceTimer.stop now stage
  | Clear => InferenceTimer.clear
  end.

Inductive pipeline_call (F : Type) : Type :=
  | Reset
  | StartStage (now : F) (stage : string)
  | StopStage (now : F) (stage : string).
Arguments Reset {F}.
Arguments StartStage {F} now stage.
Arguments StopStage {F} now stage.

Definition pipeline_step {F} (c : pipeline_call F) : PipelineTimer.t F → PipelineTimer.t F * outcome () :=
  match c with
  | Reset => PipelineTimer.reset
  | StartStage now stage => PipelineTimer.start_inference_stage now stage
  | StopStage now stage => PipelineTimer.stop_inference_stage now stage
  end.

(** Runs the calls in order; returns the final object and every outcome. *)
Fixpoint run {S C} (step : C → S → S * outcome ()) (calls : list C) (s : S)
    : S * list (outcome ()) :=
  match calls with
  | [] => (s, [])
  | c :: calls =>
      let '(s, r) := step c s in
      let '(s, rs) := run step calls s in
      (s, r :: rs)
  end.

(** Every call of the sequence returned normally. *)
Definition all_return (rs : list (outcome ())) : bool :=
  forallb (λ r, negb (raises r)) rs.

(** ** Exact rationals as clock readings *)

#[global] Instance Q_ops : FloatOps Q := {
  fsub a b := Qred (a - b);
  fsum xs := Qred (fold_left Qplus xs 0%Q);
  fdiv a n := Qred (a / inject_Z (Z.of_nat n))
}.

(** ** Observations on a timer, used to state the properties *)

Section observations.
Context {F : Type}.
Implicit Types (self : InferenceTimer.t F) (stage : string).

(** [len(self._staged_start_times[stage])], zero for an absent stage. *)
Definition recorded_starts self stage : nat :=
  length (default [] (InferenceTimer._staged_start_times self !! stage)).

(** [len(self._staged_stop_times[stage])], zero for an absent stage. *)
Definition recorded_stops self stage : nat :=
  length (default [] (InferenceTimer._staged_stop_times self !! stage)).

(** Starts that no stop has matched yet. *)
Definition unmatched_starts self stage : nat :=
  recorded_starts self stage - recorded_stops self stage.

(** The state invariant of a timer that is only used through its methods:
    a stage that has an entry has at least one start, an entry in both
    dictionaries, and at most one start more than stops; the stop
    dictionary has no other entries. *)
Definition stage_okb self stage (starts : list F) : bool :=
  match InferenceTimer._staged_stop_times self !! stage with
  | Some stops =>
      bool_decide (starts ≠ []) &&
      (bool_decide (length starts = length stops)
       || bool_decide (length starts = length stops + 1))
  | None => false
  end.

Definition timer_wf self : Prop :=
  map_Forall (λ stage starts, stage_okb self stage starts = true)
             (InferenceTimer._staged_start_times self)
  ∧ dom (InferenceTimer._staged_stop_times self)
      ⊆ dom (InferenceTimer._staged_start_times self).

(** Every stage of the timer has as many stops as starts. *)
Definition stage_balancedb self stage (starts : list F) : bool :=
  match InferenceTimer._staged_stop_times self !! stage with
  | Some stops => bool_decide (length starts = length stops)
  | None => false
  end.

Definition balanced self : Prop :=
  map_Forall (λ stage starts, stage_balancedb self stage starts = true)
             (InferenceTimer._staged_start_times self).

(** Both predicates are decided by evaluation. *)
#[global] Instance timer_wf_dec self : Decision (timer_wf self).
Proof. unfold timer_wf. apply _. Defined.

#[global] Instance balanced_dec self : Decision (balanced self).
Proof. unfold balanced. apply _. Defined.
End observations.

(** ** Observations on a pipeline timer *)

Section pipeline_observations.
Context {F : Type} `{!FloatOps F}.
Implicit Types (timer : InferenceTimer.t F) (self : PipelineTimer.t F).

(** The raw duration samples of a stage in one snapshot: one
    [stop - start] per completed pair, none for an absent stage. *)
Definition raw_samples timer (stage : string) : list F :=
  zip_with fsub
    (default [] (InferenceTimer._staged_stop_times timer !! stage))
    (default [] (InferenceTimer._staged_start_times timer !! stage)).

(** The samples of a stage merged across every tracked snapshot, in the
    order of the snapshots. *)
Definition merged_samples self (stage : string) : list F :=
  concat ((λ timer, raw_samples timer stage) <$> PipelineTimer._timers self).

(** The other way to aggregate, which [times] does not use: the average of
    the averages of the snapshots that have the stage. *)
Definition mean_of_means self (stage : string) : outcome F :=
  means ← mapM (λ timer, InferenceTimer.stage_average_time timer stage)
               (filter (λ timer, stage ∈ InferenceTimer.stages timer)
                       (PipelineTimer._timers self));
  average means.

(** Every tracked snapshot satisfies the timer invariant. *)
Definition pipeline_wf self : Prop :=
  Forall timer_wf (PipelineTimer._timers self).

#[global] Instance pipeline_wf_dec self : Decision (pipeline_wf self).
Proof. unfold pipeline_wf. apply _. Defined.
End pipeline_observations.

(** ** Rounds of recording

    A round is one [reset()] followed by [start]/[stop] calls on stages. *)

Inductive stage_call (F : Type) : Type :=
  | StageStart (now : F) (stage : string)
  | StageStop (now : F) (stage : string).
Arguments StageStart {F} now stage.
Arguments StageStop {F} now stage.

Definition on_pipeline {F} (c : stage_call F) : pipeline_call F :=
  match c with
  | StageStart now stage => StartStage now stage
  | StageStop now stage => StopStage now stage
  end.

Definition on_inference {F} (c : stage_call F) : timer_call F :=
  match c with
  | StageStart now stage => Start now stage
  | StageStop now stage => Stop now stage
  end.

Definition round_calls {F} (round : list (stage_call F)) : list (pipeline_call F) :=
  Reset :: (on_pipeline <$> round).

Definition rounds_calls {F} (rounds : list (list (stage_call F)))
    : list (pipeline_call F) :=
  concat (round_calls <$> rounds).

(** What the calls of one round record on a fresh [InferenceTimer]. *)
Definition snapshot_of {F} (round : list (stage_call F)) : InferenceTimer.t F :=
  (run timer_step (on_inference <$> round) InferenceTimer.init).1.

(** The outcomes of one round: [reset()] returns, then each call of the round
    ends as it does on a fresh [InferenceTimer]. *)
Definition outcomes_of {F} (round : list (stage_call F)) : list (outcome ()) :=
  Return () :: (run timer_step (on_inference <$> round) InferenceTimer.init).2.

(** ** A concrete run, with exact rationals as clock readings

    Two rounds on a multi-inference pipeline timer: stage [x] takes 1 and 3
    in the first round and 8 in the second. *)

Definition demo_rounds : list (list (stage_call Q)) :=
  [ [StageStart 1%Q "x"; StageStop 2%Q "x"; StageStart 3%Q "x"; StageStop 6%Q "x"];
    [StageStart 10%Q "x"; StageStop 18%Q "x"] ].

Definition demo_pipeline : PipelineTimer.t Q :=
  (run pipeline_step (rounds_calls demo_rounds) (PipelineTimer.init true true)).1.

(** ** The stages a sequence of calls leaves

    [start(stage)] registers the stage whether it returns or raises; [stop]
    registers nothing; [clear()] forgets every stage. *)

Fixpoint started_stages {F} (calls : list (timer_call F)) (known : gset string)
    : gset string :=
  match calls with
  | [] => known
  | Start _ stage :: calls => started_stages calls (known ∪ {[stage]})
  | Stop _ _ :: calls => started_stages calls known
  | Clear :: calls => started_stages calls ∅
  end.

(** The snapshot the stage calls of an enabled pipeline timer act on: the
    current one, or the fresh one the guard creates when none is tracked. *)
Definition snapshot_in_use {F} (self : PipelineTimer.t F) : InferenceTimer.t F :=
  default InferenceTimer.init (PipelineTimer.current_inference self).

(** ** Basic facts *)

Section timer_facts.
Context {F : Type}.
Implicit Types (self : InferenceTimer.t F) (stage : string) (now : F).

Lemma mapM_seq_Return {B} (g : nat → outcome B) (l : list B) (n : nat) :
  (∀ i y, l !! i = Some y → g (n + i) = Return y) →
  mapM g (seq n (length l)) = Return l.
Proof.
  revert n. induction l as [|y l IH]; intros n Hg; [done|].
  cbn [length seq mapM]. rewrite <-(Nat.add_0_r n) at 1.
  rewrite (Hg 0 y eq_refl). cbn.
  rewrite (IH (S n)); [done|].
  intros i z Hi. replace (S n + i) with (n + S i) by lia. by apply Hg.
Qed.

Lemma deltas_zip `{!FloatOps F} (starts stops : list F) :
  length starts = length stops →
  InferenceTimer.deltas starts stops = Return (zip_with fsub stops starts).
Proof.
  intros Hlen. unfold InferenceTimer.deltas.
  replace (length starts) with (length (zip_with fsub stops starts))
    by (rewrite length_zip_with; lia).
  apply mapM_seq_Return. intros i y. cbn. rewrite lookup_zip_with.
  destruct (stops !! i), (starts !! i); cbn; congruence.
Qed.

Lemma timer_wf_init : timer_wf (@InferenceTimer.init F).
Proof. split; [apply map_Forall_empty | done]. Qed.

Lemma timer_wf_lookup self stage starts :
  timer_wf self →
  InferenceTimer._staged_start_times self !! stage = Some starts →
  ∃ stops, InferenceTimer._staged_stop_times self !! stage = Some stops
    ∧ starts ≠ []
    ∧ (length starts = length stops ∨ length starts = length stops + 1).
Proof.
  intros [Hwf _] Hs. specialize (Hwf stage starts Hs). unfold stage_okb in Hwf.
  destruct (InferenceTimer._staged_stop_times self !! stage) as [stops|]; [|done].
  exists stops. split; [done|].
  apply andb_true_iff in Hwf as [H1 H2]. apply bool_decide_eq_true in H1.
  apply orb_true_iff in H2 as [H2|H2]; apply bool_decide_eq_true in H2; auto.
Qed.

(** A call that raises leaves the timer as it was. *)
Lemma start_Raise now stage self self' e :
  InferenceTimer.start now stage self = (self', Raise e) → self' = self.
Proof.
  unfold InferenceTimer.start.
  destruct (InferenceTimer._staged_start_times self !! stage) as [starts|] eqn:Hs.
  - rewrite Hs.
    destruct (InferenceTimer._staged_stop_times self !! stage);
      [case_decide|]; congruence.
  - cbn. rewrite !lookup_insert_eq. cbn. case_decide; [done | congruence].
Qed.

Lemma stop_Raise now stage self self' e :
  InferenceTimer.stop now stage self = (self', Raise e) → self' = self.
Proof.
  unfold InferenceTimer.stop.
  destruct (InferenceTimer._staged_start_times self !! stage); [|congruence].
  destruct (InferenceTimer._staged_stop_times self !! stage); [|congruence].
  case_decide; congruence.
Qed.
End timer_facts.

Section timer_invariant.
Context {F : Type}.
Implicit Types (self : InferenceTimer.t F) (stage : string) (now : F).

Lemma stage_okb_intro self stage (starts stops : list F) :
  InferenceTimer._staged_stop_times self !! stage = Some stops →
  starts ≠ [] →
  length starts = length stops ∨ length starts = length stops + 1 →
  stage_okb self stage starts = true.
Proof.
  intros Hp Hne Hlen. unfold stage_okb. rewrite Hp.
  apply andb_true_iff. split; [by apply bool_decide_eq_true|].
  apply orb_true_iff. destruct Hlen; [left|right]; by apply bool_decide_eq_true.
Qed.

Lemma start_wf now stage self :
  timer_wf self → timer_wf (InferenceTimer.start now stage self).1.
Proof.
  intros Hwf. unfold InferenceTimer.start.
  destruct (InferenceTimer._staged_start_times self !! stage) as [starts|] eqn:Hs.
  - rewrite Hs.
    destruct (timer_wf_lookup _ _ _ Hwf Hs) as (stops & Hp & Hne & Hlen).
    rewrite Hp. case_decide; [done|]. cbn.
    split; cbn; [|rewrite dom_insert_L; apply proj2 in Hwf; clear -Hwf; set_solver].
    intros k l Hk. cbn in Hk. destruct (decide (k = stage)) as [->|Hne'].
    + rewrite lookup_insert_eq in Hk. injection Hk as <-.
      apply (stage_okb_intro _ _ _ stops); [done| |].
      * by destruct starts.
      * right. rewrite length_app. cbn. lia.
    + rewrite lookup_insert_ne in Hk by done.
      destruct (timer_wf_lookup _ _ _ Hwf Hk) as (stops' & Hp' & ? & ?).
      by apply (stage_okb_intro _ _ _ stops').
  - cbn. rewrite !lookup_insert_eq. cbn. case_decide; [done|]. cbn.
    rewrite insert_insert_eq.
    split; cbn; [|rewrite !dom_insert_L; apply proj2 in Hwf; clear -Hwf; set_solver].
    intros k l Hk. cbn in Hk. destruct (decide (k = stage)) as [->|Hne'].
    + rewrite lookup_insert_eq in Hk. injection Hk as <-.
      apply (stage_okb_intro _ _ _ []); cbn; [apply lookup_insert_eq|done|by right].
    + rewrite lookup_insert_ne in Hk by done.
      destruct (timer_wf_lookup _ _ _ Hwf Hk) as (stops' & Hp' & ? & ?).
      apply (stage_okb_intro _ _ _ stops'); [|done..].
      cbn. by rewrite lookup_insert_ne.
Qed.

Lemma stop_wf now stage self :
  timer_wf self → timer_wf (InferenceTimer.stop now stage self).1.
Proof.
  intros Hwf. unfold InferenceTimer.stop.
  destruct (InferenceTimer._staged_start_times self !! stage) as [starts|] eqn:Hs;
    [|done].
  destruct (timer_wf_lookup _ _ _ Hwf Hs) as (stops & Hp & Hne & Hlen).
  rewrite Hp. case_decide; [done|]. cbn.
  split; cbn.
  2:{ rewrite dom_insert_L. apply elem_of_dom_2 in Hs. apply proj2 in Hwf.
      clear -Hs Hwf. set_solver. }
  intros k l Hk. cbn in Hk. destruct (decide (k = stage)) as [->|Hne'].
  - assert (l = starts) as -> by congruence.
    apply (stage_okb_intro _ _ _ (stops ++ [now])); cbn;
      [apply lookup_insert_eq|done|].
    left. rewrite length_app. cbn. lia.
  - destruct (timer_wf_lookup _ _ _ Hwf Hk) as (stops' & Hp' & ? & ?).
    apply (stage_okb_intro _ _ _ stops'); [|done..].
    cbn. by rewrite lookup_insert_ne.
Qed.

Lemma timer_step_wf (c : timer_call F) self :
  timer_wf self → timer_wf (timer_step c self).1.
Proof.
  destruct c; cbn; [apply start_wf | apply stop_wf | intros _; apply timer_wf_init].
Qed.

Lemma run_timer_wf (calls : list (timer_call F)) self :
  timer_wf self → timer_wf (run timer_step calls self).1.
Proof.
  revert self. induction calls as [|c calls IH]; intros self Hwf; [done|].
  cbn. pose proof (timer_step_wf c self Hwf) as Hc.
  destruct (timer_step c self) as [self1 r]. specialize (IH self1 Hc).
  by destruct (run timer_step calls self1).
Qed.

Lemma timer_wf_counts self stage :
  timer_wf self →
  recorded_stops self stage ≤ recorded_starts self stage
  ∧ recorded_starts self stage ≤ recorded_stops self stage + 1.
Proof.
  intros Hwf. unfold recorded_starts, recorded_stops.
  destruct (InferenceTimer._staged_start_times self !! stage) as [starts|] eqn:Hs.
  - destruct (timer_wf_lookup _ _ _ Hwf Hs) as (stops & -> & _ & Hlen). cbn. lia.
  - destruct Hwf as [_ Hdom]. apply not_elem_of_dom in Hs.
    assert (InferenceTimer._staged_stop_times self !! stage = None) as ->
      by (apply not_elem_of_dom; set_solver).
    cbn. lia.
Qed.
End timer_invariant.

(** ** The equations of [start], [stop] and [stage_times], case by case *)

Section timer_equations.
Context {F : Type}.
Implicit Types (self : InferenceTimer.t F) (stage : string) (now : F).
Import InferenceTimer.

Lemma start_new_stage now stage self :
  _staged_start_times self !! stage = None →
  start now stage self
  = (mk (<[stage := [now]]> (_staged_start_times self))
        (<[stage := []]> (_staged_stop_times self)), Return ()).
Proof.
  intros Hs. unfold start. rewrite Hs. cbn. rewrite !lookup_insert_eq. cbn.
  case_decide; [done|]. by rewrite insert_insert_eq.
Qed.

Lemma start_closed now stage self starts stops :
  _staged_start_times self !! stage = Some starts →
  _staged_stop_times self !! stage = Some stops →
  length starts = length stops →
  start now stage self
  = (mk (<[stage := starts ++ [now]]> (_staged_start_times self))
        (_staged_stop_times self), Return ()).
Proof.
  intros Hs Hp Hlen. unfold start. rewrite Hs, Hs, Hp. by case_decide.
Qed.

Lemma start_open now stage self starts stops :
  _staged_start_times self !! stage = Some starts →
  _staged_stop_times self !! stage = Some stops →
  length starts ≠ length stops →
  start now stage self = (self, Raise ValueError).
Proof.
  intros Hs Hp Hlen. unfold start. rewrite Hs, Hs, Hp. by case_decide.
Qed.

Lemma stop_unstarted now stage self :
  _staged_start_times self !! stage = None →
  stop now stage self = (self, Raise ValueError).
Proof. intros Hs. unfold stop. by rewrite Hs. Qed.

Lemma stop_closed now stage self starts stops :
  _staged_start_times self !! stage = Some starts →
  _staged_stop_times self !! stage = Some stops →
  length starts ≠ length stops + 1 →
  stop now stage self = (self, Raise ValueError).
Proof. intros Hs Hp Hlen. unfold stop. rewrite Hs, Hp. by case_decide. Qed.

Lemma stop_open now stage self starts stops :
  _staged_start_times self !! stage = Some starts →
  _staged_stop_times self !! stage = Some stops →
  length starts = length stops + 1 →
  stop now stage self
  = (mk (_staged_start_times self)
        (<[stage := stops ++ [now]]> (_staged_stop_times self)), Return ()).
Proof. intros Hs Hp Hlen. unfold stop. rewrite Hs, Hp. by case_decide. Qed.

(** [stop] returns normally only on a stage with exactly one open start. *)
Lemma stop_Return_inv now stage self self' :
  stop now stage self = (self', Return ()) →
  ∃ starts stops,
    _staged_start_times self !! stage = Some starts
    ∧ _staged_stop_times self !! stage = Some stops
    ∧ length starts = length stops + 1
    ∧ self' = mk (_staged_start_times self)
                 (<[stage := stops ++ [now]]> (_staged_stop_times self)).
Proof.
  unfold stop.
  destruct (_staged_start_times self !! stage) as [starts|]; [|done].
  destruct (_staged_stop_times self !! stage) as [stops|]; [|done].
  case_decide; [done|]. intros [= <-]. exists starts, stops.
  repeat split; lia.
Qed.

Context `{!FloatOps F}.

Lemma stage_times_closed self stage starts stops :
  _staged_start_times self !! stage = Some starts →
  _staged_stop_times self !! stage = Some stops →
  length starts = length stops →
  stage_times self stage = Return (zip_with fsub stops starts).
Proof.
  intros Hs Hp Hlen. unfold stage_times. rewrite Hs, Hp.
  case_decide; [done|]. by apply deltas_zip.
Qed.

Lemma stage_times_unstarted self stage :
  _staged_start_times self !! stage = None →
  stage_times self stage = Raise ValueError.
Proof. intros Hs. unfold stage_times. by rewrite Hs. Qed.

Lemma stage_times_open self stage starts stops :
  _staged_start_times self !! stage = Some starts →
  _staged_stop_times self !! stage = Some stops →
  length starts ≠ length stops →
  stage_times self stage = Raise ValueError.
Proof. intros Hs Hp Hlen. unfold stage_times. rewrite Hs, Hp. by case_decide. Qed.
End timer_equations.

(** ** Facts about [PipelineTimer] *)

Section pipeline_facts.
Context {F : Type}.
Implicit Types (self : PipelineTimer.t F) (timer cur : InferenceTimer.t F).
Import PipelineTimer.

Lemma run_app {S C} (step : C → S → S * outcome ()) (calls1 calls2 : list C) s :
  run step (calls1 ++ calls2) s
  = let '(s1, rs1) := run step calls1 s in
    let '(s2, rs2) := run step calls2 s1 in
    (s2, rs1 ++ rs2).
Proof.
  revert s. induction calls1 as [|c calls1 IH]; intros s; cbn.
  - by destruct (run step calls2 s).
  - destruct (step c s) as [s' r]. rewrite IH.
    destruct (run step calls1 s') as [s1 rs1].
    by destruct (run step calls2 s1).
Qed.

Lemma check_start_inference_timers self :
  _timers (_check_start_inference self)
  = match _timers self with
    | [] => [InferenceTimer.init]
    | _ => _timers self
    end.
Proof.
  unfold _check_start_inference, current_inference.
  destruct (_timers self) as [|timer timers] eqn:Ht; [done|].
  destruct (last (timer :: timers)) eqn:Hl; [done|].
  by apply last_None in Hl.
Qed.

Lemma check_start_inference_eq self :
  _check_start_inference self
  = set_timers self (_timers (_check_start_inference self)).
Proof.
  unfold _check_start_inference.
  destruct (current_inference self); [by destruct self | done].
Qed.

Lemma check_start_inference_id self timers cur :
  _timers self = timers ++ [cur] → _check_start_inference self = self.
Proof.
  intros Ht. unfold _check_start_inference, current_inference.
  by rewrite Ht, last_snoc.
Qed.

(** A method called on [self._timers[-1]] of a non-empty list. *)
Lemma on_timer_last {A} (method : InferenceTimer.t F → InferenceTimer.t F * outcome A)
    self timers cur :
  _timers self = timers ++ [cur] →
  on_timer (pred (length (_timers self))) method self
  = (set_timers self (timers ++ [(method cur).1]), (method cur).2).
Proof.
  intros Ht. unfold on_timer. rewrite Ht, length_app. cbn.
  replace (pred (length timers + 1)) with (length timers + 0) by lia.
  rewrite lookup_app_r by lia.
  replace (length timers + 0 - length timers) with 0 by lia. cbn.
  destruct (method cur) as [cur' r]. cbn.
  by rewrite insert_app_r.
Qed.

Lemma pipeline_step_disabled (c : pipeline_call F) self :
  _enabled self = false → pipeline_step c self = (self, Return ()).
Proof.
  intros He. destruct c; cbn;
    unfold reset, start_inference_stage, stop_inference_stage; by rewrite He.
Qed.

(** [start]/[stop] of a stage on an enabled pipeline timer that has a
    current snapshot act on that snapshot alone. *)
Lemma stage_call_current (c : stage_call F) self timers cur :
  _enabled self = true →
  _timers self = timers ++ [cur] →
  pipeline_step (on_pipeline c) self
  = (set_timers self (timers ++ [(timer_step (on_inference c) cur).1]),
     (timer_step (on_inference c) cur).2).
Proof.
  intros He Ht.
  destruct c; cbn; unfold start_inference_stage, stop_inference_stage;
    rewrite He; cbn; rewrite (check_start_inference_id _ _ _ Ht);
    by apply on_timer_last.
Qed.

Lemma record_current (round : list (stage_call F)) self timers cur :
  _enabled self = true →
  _timers self = timers ++ [cur] →
  run pipeline_step (on_pipeline <$> round) self
  = (set_timers self
       (timers ++ [(run timer_step (on_inference <$> round) cur).1]),
     (run timer_step (on_inference <$> round) cur).2).
Proof.
  revert self cur. induction round as [|c round IH]; intros self cur He Ht.
  - cbn. rewrite <-Ht. by destruct self.
  - cbn [fmap list_fmap run]. rewrite (stage_call_current c self timers cur He Ht).
    destruct (timer_step (on_inference c) cur) as [cur1 r]. cbn [fst snd].
    rewrite (IH (set_timers self (timers ++ [cur1])) cur1 He eq_refl).
    by destruct (run timer_step (on_inference <$> round) cur1).
Qed.
End pipeline_facts.

Section pipeline_reset.
Context {F : Type}.
Implicit Types (self : PipelineTimer.t F) (timer cur : InferenceTimer.t F).
Import PipelineTimer.

Lemma check_start_inference_multi self :
  _multi_inference (_check_start_inference self) = _multi_inference self.
Proof. by rewrite check_start_inference_eq. Qed.

Lemma set_timers_check self timers :
  set_timers (_check_start_inference self) timers = set_timers self timers.
Proof. by rewrite check_start_inference_eq. Qed.

Lemma reset_multi self :
  _enabled self = true → _multi_inference self = true →
  reset self
  = (set_timers self
       (_timers (_check_start_inference self) ++ [InferenceTimer.init]),
     Return ()).
Proof.
  intros He Hm. unfold reset, multi_inference. rewrite He. cbn.
  by rewrite check_start_inference_multi, Hm, set_timers_check.
Qed.

Lemma reset_single self :
  _enabled self = true → _multi_inference self = false →
  reset self
  = (set_timers self
       (<[0 := InferenceTimer.init]> (_timers (_check_start_inference self))),
     Return ()).
Proof.
  intros He Hm. unfold reset, multi_inference. rewrite He. cbn.
  rewrite check_start_inference_multi, Hm. unfold on_timer.
  rewrite check_start_inference_timers.
  destruct (_timers self) eqn:Ht; cbn; by rewrite set_timers_check.
Qed.

Lemma run_round (round : list (stage_call F)) self :
  _enabled self = true → _multi_inference self = true →
  run pipeline_step (round_calls round) self
  = (set_timers self
       (_timers (_check_start_inference self) ++ [snapshot_of round]),
     outcomes_of round).
Proof.
  intros He Hm. unfold round_calls. cbn [run pipeline_step].
  rewrite (reset_multi self He Hm).
  rewrite (record_current round
             (set_timers self
                (_timers (_check_start_inference self) ++ [InferenceTimer.init]))
             (_timers (_check_start_inference self)) InferenceTimer.init He eq_refl).
  done.
Qed.

Lemma run_rounds_current (rounds : list (list (stage_call F))) self timers cur :
  _enabled self = true → _multi_inference self = true →
  _timers self = timers ++ [cur] →
  run pipeline_step (rounds_calls rounds) self
  = (set_timers self (timers ++ [cur] ++ (snapshot_of <$> rounds)),
     concat (outcomes_of <$> rounds)).
Proof.
  revert self timers cur.
  induction rounds as [|round rounds IH]; intros self timers cur He Hm Ht.
  - cbn. rewrite <-Ht. by destruct self.
  - unfold rounds_calls. cbn [fmap list_fmap concat]. rewrite run_app.
    rewrite (run_round round self He Hm).
    rewrite (check_start_inference_id _ _ _ Ht), Ht.
    fold (rounds_calls rounds).
    rewrite (IH (set_timers self ((timers ++ [cur]) ++ [snapshot_of round]))
               (timers ++ [cur]) (snapshot_of round) He Hm eq_refl).
    cbn. by rewrite <-!app_assoc.
Qed.
End pipeline_reset.

(** ** Aggregation *)

Section aggregation.
Context {F : Type} `{!FloatOps F}.
Implicit Types (self : PipelineTimer.t F) (timer : InferenceTimer.t F).
Implicit Types (acc m : gmap string (list F)).

Lemma dict_comp_Return {B} (f : string → outcome B) (g : string → B)
    (keys : gset string) :
  (∀ k, k ∈ keys → f k = Return (g k)) →
  ∃ m : gmap string B, dict_comp f keys = Return m
    ∧ ∀ k, m !! k = if decide (k ∈ keys) then Some (g k) else None.
Proof.
  unfold dict_comp. revert keys.
  apply (set_fold_ind_L (λ r (X : gset string),
    (∀ k, k ∈ X → f k = Return (g k)) →
    ∃ m : gmap string B, r = Return m
      ∧ ∀ k, m !! k = if decide (k ∈ X) then Some (g k) else None)).
  - intros _. exists ∅. split; [done|]. intros k.
    rewrite lookup_empty. by case_decide.
  - intros x X r Hx IH Hf.
    destruct IH as (m & -> & Hm); [intros k Hk; apply Hf; set_solver|].
    exists (<[x := g x]> m). split.
    + cbn. rewrite Hf by set_solver. done.
    + intros k. destruct (decide (k = x)) as [->|Hne].
      * rewrite lookup_insert_eq. rewrite decide_True by set_solver. done.
      * rewrite lookup_insert_ne by done. rewrite Hm.
        destruct (decide (k ∈ X)).
        -- rewrite decide_True by set_solver. done.
        -- rewrite decide_False by set_solver. done.
Qed.

Lemma raw_samples_unstarted timer stage :
  InferenceTimer._staged_start_times timer !! stage = None →
  raw_samples timer stage = [].
Proof.
  intros Hs. unfold raw_samples. rewrite Hs. cbn.
  by destruct (default [] _).
Qed.

Lemma balanced_lookup timer stage starts :
  balanced timer →
  InferenceTimer._staged_start_times timer !! stage = Some starts →
  ∃ stops, InferenceTimer._staged_stop_times timer !! stage = Some stops
    ∧ length starts = length stops.
Proof.
  intros Hb Hs. specialize (Hb stage starts Hs). unfold stage_balancedb in Hb.
  destruct (InferenceTimer._staged_stop_times timer !! stage) as [stops|]; [|done].
  exists stops. split; [done|]. by apply bool_decide_eq_true in Hb.
Qed.

Lemma stage_times_balanced timer stage :
  balanced timer → stage ∈ InferenceTimer.stages timer →
  InferenceTimer.stage_times timer stage = Return (raw_samples timer stage).
Proof.
  intros Hb Hin. unfold InferenceTimer.stages in Hin.
  apply elem_of_dom in Hin as [starts Hs].
  destruct (balanced_lookup _ _ _ Hb Hs) as (stops & Hp & Hlen).
  rewrite (stage_times_closed _ _ _ _ Hs Hp Hlen).
  unfold raw_samples. by rewrite Hs, Hp.
Qed.

Lemma all_times_balanced timer :
  balanced timer →
  ∃ m, InferenceTimer.all_times timer = Return m
    ∧ ∀ k, m !! k = if decide (k ∈ InferenceTimer.stages timer)
                    then Some (raw_samples timer k) else None.
Proof.
  intros Hb. apply dict_comp_Return. intros k Hk. by apply stage_times_balanced.
Qed.

Lemma extend_all_Return acc m :
  dom m ⊆ dom acc →
  ∃ acc', PipelineTimer.extend_all acc m = Return acc'
    ∧ ∀ k, acc' !! k = (λ l, l ++ default [] (m !! k)) <$> acc !! k.
Proof.
  unfold PipelineTimer.extend_all. revert m.
  apply (map_fold_weak_ind (λ r (m : gmap string (list F)),
    dom m ⊆ dom acc →
    ∃ acc', r = Return acc'
      ∧ ∀ k, acc' !! k = (λ l, l ++ default [] (m !! k)) <$> acc !! k)).
  - intros _. exists acc. split; [done|]. intros k. rewrite lookup_empty. cbn.
    destruct (acc !! k); cbn; [by rewrite app_nil_r | done].
  - intros i x m' r Hi IH Hdom. rewrite dom_insert in Hdom.
    destruct IH as (acc' & -> & Hacc'); [set_solver|].
    assert (i ∈ dom acc) as [l Hl]%elem_of_dom by set_solver.
    cbn. rewrite Hacc', Hl, Hi. cbn. rewrite app_nil_r.
    eexists. split; [done|]. intros k.
    destruct (decide (k = i)) as [->|Hne].
    + by rewrite !lookup_insert_eq, Hl.
    + rewrite !lookup_insert_ne by done. apply Hacc'.
Qed.
End aggregation.

Section pipeline_aggregation.
Context {F : Type} `{!FloatOps F}.
Implicit Types (self : PipelineTimer.t F) (timer : InferenceTimer.t F).
Implicit Types (timers : list (InferenceTimer.t F)).
Implicit Types (acc m : gmap string (list F)).

Lemma elem_of_foldl_stages timers (X : gset string) k :
  k ∈ foldl (λ stages timer, stages ∪ InferenceTimer.stages timer) X timers
  ↔ k ∈ X ∨ ∃ timer, timer ∈ timers ∧ k ∈ InferenceTimer.stages timer.
Proof.
  revert X. induction timers as [|timer timers IH]; intros X; cbn.
  - split; [auto|]. intros [?|(? & []%elem_of_nil & _)]. done.
  - rewrite IH, elem_of_union. split.
    + intros [[?|?]|(timer' & ? & ?)]; [by left| |].
      * right. exists timer. split; [left|done].
      * right. exists timer'. split; [by right|done].
    + intros [?|(timer' & [->|?]%elem_of_cons & ?)]; [by left;left|by left;right|].
      right. by exists timer'.
Qed.

Lemma elem_of_pipeline_stages self k :
  k ∈ PipelineTimer.stages self
  ↔ ∃ timer, timer ∈ PipelineTimer._timers self ∧ k ∈ InferenceTimer.stages timer.
Proof.
  unfold PipelineTimer.stages. rewrite elem_of_foldl_stages.
  split; [intros [[]%not_elem_of_empty|?]; done | by right].
Qed.

(** The loop over the timers in [all_times], from any accumulator that
    already has an entry for every stage. *)
Lemma all_times_loop timers acc :
  Forall balanced timers →
  (∀ timer, timer ∈ timers → InferenceTimer.stages timer ⊆ dom acc) →
  ∃ acc',
    foldl (λ r timer,
             m ← r;
             timer_times ← InferenceTimer.all_times timer;
             PipelineTimer.extend_all m timer_times) (Return acc) timers
    = Return acc'
    ∧ ∀ k, acc' !! k
           = (λ l, l ++ concat ((λ timer, raw_samples timer k) <$> timers))
             <$> acc !! k.
Proof.
  revert acc. induction timers as [|timer timers IH]; intros acc Hb Hdom.
  - exists acc. split; [done|]. intros k. cbn.
    destruct (acc !! k); cbn; [by rewrite app_nil_r | done].
  - apply Forall_cons in Hb as [Hb Hbs]. cbn [foldl].
    destruct (all_times_balanced timer Hb) as (mt & Hmt & Hlook).
    assert (dom mt ⊆ dom acc) as Hsub.
    { intros k [l Hk]%elem_of_dom. rewrite Hlook in Hk.
      case_decide; [|done]. apply (Hdom timer); [left|done]. }
    destruct (extend_all_Return acc mt Hsub) as (acc1 & Hacc1 & Hlook1).
    assert (dom acc1 = dom acc) as Hdom1.
    { apply set_eq. intros k. rewrite !elem_of_dom, Hlook1.
      destruct (acc !! k); cbn; split; intros [? ?]; by eauto. }
    destruct (IH acc1 Hbs) as (acc' & Hacc' & Hlook').
    { intros timer' Hin. rewrite Hdom1. apply Hdom. by right. }
    exists acc'. split.
    + rewrite <-Hacc'. f_equal. cbn. rewrite Hmt. cbn. exact Hacc1.
    + intros k. rewrite Hlook', Hlook1, Hlook.
      assert (default [] (if decide (k ∈ InferenceTimer.stages timer)
                          then Some (raw_samples timer k) else None)
              = raw_samples timer k) as ->.
      { case_decide as Hk; [done|]. cbn. symmetry.
        apply raw_samples_unstarted. by apply not_elem_of_dom. }
      destruct (acc !! k); cbn; [by rewrite <-app_assoc | done].
Qed.

Lemma pipeline_all_times self :
  Forall balanced (PipelineTimer._timers self) →
  ∃ m, PipelineTimer.all_times self = Return m
    ∧ ∀ k, m !! k = if decide (k ∈ PipelineTimer.stages self)
                    then Some (merged_samples self k) else None.
Proof.
  intros Hb. unfold PipelineTimer.all_times.
  destruct (all_times_loop (PipelineTimer._timers self)
              (gset_to_gmap [] (PipelineTimer.stages self)) Hb)
    as (m & Hm & Hlook).
  { intros timer Hin k Hk. rewrite dom_gset_to_gmap.
    apply elem_of_pipeline_stages. by exists timer. }
  exists m. split; [exact Hm|]. intros k.
  rewrite Hlook, lookup_gset_to_gmap. unfold merged_samples.
  case_decide as Hk.
  - by rewrite option_guard_True.
  - by rewrite option_guard_False.
Qed.

(** A stage of a well-formed, balanced pipeline timer has a sample. *)
Lemma merged_samples_nonempty self k :
  pipeline_wf self →
  Forall balanced (PipelineTimer._timers self) →
  k ∈ PipelineTimer.stages self →
  merged_samples self k ≠ [].
Proof.
  intros Hwf Hb (timer & Hin & Hk)%elem_of_pipeline_stages.
  unfold InferenceTimer.stages in Hk. apply elem_of_dom in Hk as [starts Hs].
  assert (timer_wf timer) as Hwft by (eapply Forall_forall in Hwf; eauto).
  assert (balanced timer) as Hbt by (eapply Forall_forall in Hb; eauto).
  destruct (timer_wf_lookup _ _ _ Hwft Hs) as (stops & Hp & Hne & _).
  destruct (balanced_lookup _ _ _ Hbt Hs) as (stops' & Hp' & Hlen).
  assert (raw_samples timer k ≠ []) as Hraw.
  { unfold raw_samples. rewrite Hs, Hp'. cbn.
    destruct starts; [done|]. by destruct stops'. }
  unfold merged_samples. intros Hnil.
  apply Hraw. apply list_elem_of_split in Hin as (l1 & l2 & Hsplit).
  rewrite Hsplit, fmap_app, concat_app in Hnil.
  apply app_eq_nil in Hnil as [_ Hnil]. cbn in Hnil.
  by apply app_eq_nil in Hnil as [? _].
Qed.

(** A stage with a merged sample has an entry in the start dictionary of a
    tracked snapshot. *)
Lemma merged_samples_started self k :
  merged_samples self k ≠ [] →
  ∃ timer, timer ∈ PipelineTimer._timers self
    ∧ is_Some (InferenceTimer._staged_start_times timer !! k).
Proof.
  unfold merged_samples.
  induction (PipelineTimer._timers self) as [|timer timers IH]; [done|].
  cbn. intros Hne.
  destruct (InferenceTimer._staged_start_times timer !! k) as [starts|] eqn:Hs.
  - exists timer. split; [left|]. by rewrite Hs.
  - rewrite (raw_samples_unstarted timer k Hs) in Hne. cbn in Hne.
    destruct (IH Hne) as (timer' & Hin & Hsome).
    exists timer'. split; [by right|done].
Qed.
End pipeline_aggregation.

Section pipeline_invariant.
Context {F : Type}.
Implicit Types (self : PipelineTimer.t F).
Import PipelineTimer.

Lemma pipeline_wf_init (enabled multi_inference : bool) :
  pipeline_wf (@init F enabled multi_inference).
Proof. apply Forall_nil_2. Qed.

Lemma check_start_inference_wf self :
  pipeline_wf self → pipeline_wf (_check_start_inference self).
Proof.
  unfold pipeline_wf. rewrite check_start_inference_timers.
  destruct (_timers self); [|done].
  intros _. apply Forall_singleton, timer_wf_init.
Qed.

Lemma on_timer_wf {A} i
    (method : InferenceTimer.t F → InferenceTimer.t F * outcome A) self :
  (∀ timer, timer_wf timer → timer_wf (method timer).1) →
  pipeline_wf self → pipeline_wf (on_timer i method self).1.
Proof.
  intros Hmethod Hwf. unfold on_timer.
  destruct (_timers self !! i) as [timer|] eqn:Hi; [|done].
  specialize (Hmethod timer). destruct (method timer) as [timer' r]. cbn in *.
  apply Forall_insert; [done|]. apply Hmethod.
  eapply Forall_lookup_1; eauto.
Qed.

(** Every method of [PipelineTimer] keeps every snapshot well formed. *)
Lemma pipeline_step_wf (c : pipeline_call F) self :
  pipeline_wf self → pipeline_wf (pipeline_step c self).1.
Proof.
  intros Hwf. apply check_start_inference_wf in Hwf as Hwf'.
  destruct c; cbn; unfold reset, start_inference_stage, stop_inference_stage;
    destruct (_enabled self); cbn; try done.
  - destruct (multi_inference _); cbn.
    + apply Forall_app. split; [done|]. apply Forall_singleton, timer_wf_init.
    + apply on_timer_wf; [|done]. intros ? _. apply timer_wf_init.
  - apply on_timer_wf; [|done]. intros ?. apply start_wf.
  - apply on_timer_wf; [|done]. intros ?. apply stop_wf.
Qed.

Lemma run_pipeline_wf (calls : list (pipeline_call F)) self :
  pipeline_wf self → pipeline_wf (run pipeline_step calls self).1.
Proof.
  revert self. induction calls as [|c calls IH]; intros self Hwf; [done|].
  cbn. pose proof (pipeline_step_wf c self Hwf) as Hc.
  destruct (pipeline_step c self) as [self1 r]. specialize (IH self1 Hc).
  by destruct (run pipeline_step calls self1).
Qed.
End pipeline_invariant.

(** * The properties of the timers *)

Section timer_properties.
Context {F : Type} `{!FloatOps F}.
Implicit Types (self : InferenceTimer.t F) (stage : string).

(** C2, as amended.  On a fresh [InferenceTimer], the second [start] of a
    stage without a [stop] in between raises [ValueError] and records
    nothing: at that point the stage has exactly one unmatched start and no
    average can be computed.  The [stop] that follows matches that one
    start: no unmatched start is left and the stage has the single sample
    [stop - start], whose average is computed. *)
Theorem second_start_rejected_then_stop_matches (t1 t2 t3 : F) stage :
  let after_starts :=
    run timer_step [Start t1 stage; Start t2 stage] InferenceTimer.init in
  let after_stop :=
    run timer_step [Start t1 stage; Start t2 stage; Stop t3 stage]
        InferenceTimer.init in
  after_starts.2 = [Return (); Raise ValueError]
  ∧ unmatched_starts after_starts.1 stage = 1
  ∧ InferenceTimer.stage_average_time after_starts.1 stage = Raise ValueError
  ∧ after_stop.2 = [Return (); Raise ValueError; Return ()]
  ∧ unmatched_starts after_stop.1 stage = 0
  ∧ InferenceTimer.stage_times after_stop.1 stage = Return [fsub t3 t1]
  ∧ InferenceTimer.stage_average_time after_stop.1 stage
    = Return (fdiv (fsum [fsub t3 t1]) 1).
Proof.
  cbn [run timer_step].
  rewrite (start_new_stage t1 stage InferenceTimer.init) by apply lookup_empty.
  cbn [InferenceTimer.init InferenceTimer._staged_start_times
       InferenceTimer._staged_stop_times].
  set (one := InferenceTimer.mk (<[stage := [t1]]> ∅) (<[stage := []]> ∅)).
  assert (InferenceTimer._staged_start_times one !! stage = Some [t1]) as Hs
    by apply lookup_insert_eq.
  assert (InferenceTimer._staged_stop_times one !! stage = Some []) as Hp
    by apply lookup_insert_eq.
  rewrite (start_open t2 stage one [t1] [] Hs Hp) by done.
  rewrite (stop_open t3 stage one [t1] [] Hs Hp) by done.
  cbn [fst snd app].
  set (two := InferenceTimer.mk _ _).
  assert (InferenceTimer._staged_stop_times two !! stage = Some [t3]) as Hp'
    by apply lookup_insert_eq.
  unfold unmatched_starts, recorded_starts, recorded_stops,
    InferenceTimer.stage_average_time.
  rewrite (stage_times_open one stage [t1] [] Hs Hp) by done.
  rewrite (stage_times_closed two stage [t1] [t3] Hs Hp') by done.
  change (InferenceTimer._staged_start_times two) with
    (InferenceTimer._staged_start_times one).
  rewrite Hs, Hp, Hp'. done.
Qed.

(** C3.  [stop(stage)] on a stage without an unmatched start, because the
    stage was never started or because each of its starts already has its
    stop, raises [ValueError] and leaves the timer as it was: no sample is
    recorded. *)
Theorem stop_without_unmatched_start_raises (now : F) stage self :
  InferenceTimer._staged_start_times self !! stage = None
  ∨ (∃ starts stops,
       InferenceTimer._staged_start_times self !! stage = Some starts
       ∧ InferenceTimer._staged_stop_times self !! stage = Some stops
       ∧ length starts = length stops) →
  InferenceTimer.stop now stage self = (self, Raise ValueError).
Proof.
  intros [Hs|(starts & stops & Hs & Hp & Hlen)].
  - by apply stop_unstarted.
  - apply (stop_closed _ _ _ starts stops); [done..|lia].
Qed.

(** C8.  [stage_average_time(stage)] raises for every stage that has no
    completed sample, be it never started or started and not yet stopped:
    it never returns a number for it. *)
Theorem stage_average_time_without_samples_raises self stage :
  recorded_stops self stage = 0 →
  ∃ e, InferenceTimer.stage_average_time self stage = Raise e.
Proof.
  unfold recorded_stops, InferenceTimer.stage_average_time,
    InferenceTimer.stage_times.
  intros Hzero.
  destruct (InferenceTimer._staged_start_times self !! stage) as [starts|];
    [|by eexists].
  destruct (InferenceTimer._staged_stop_times self !! stage) as [stops|];
    [|by eexists].
  cbn in Hzero. apply length_zero_iff_nil in Hzero as ->.
  case_decide; [by eexists|].
  destruct starts; [|done]. cbn. by eexists.
Qed.

(** C9.  For two different stages [a] and [b], the calls [start(b)],
    [start(a)], [stop(a)], [stop(b)] on a fresh timer all return, and each
    stage then has the one sample made of its own two clock readings. *)
Theorem nested_stages_are_independent (a b : string) (b0 a0 a1 b1 : F) :
  a ≠ b →
  let result :=
    run timer_step [Start b0 b; Start a0 a; Stop a1 a; Stop b1 b]
        InferenceTimer.init in
  result.2 = [Return (); Return (); Return (); Return ()]
  ∧ InferenceTimer.stage_times result.1 a = Return [fsub a1 a0]
  ∧ InferenceTimer.stage_times result.1 b = Return [fsub b1 b0].
Proof.
  intros Hab. cbn [run timer_step].
  rewrite (start_new_stage b0 b InferenceTimer.init) by apply lookup_empty.
  cbn [InferenceTimer.init InferenceTimer._staged_start_times
       InferenceTimer._staged_stop_times].
  rewrite (start_new_stage a0 a) by (cbn; by rewrite lookup_insert_ne).
  cbn [InferenceTimer._staged_start_times InferenceTimer._staged_stop_times].
  rewrite (stop_open a1 a _ [a0] []);
    [|cbn; apply lookup_insert_eq..|done].
  cbn [InferenceTimer._staged_start_times InferenceTimer._staged_stop_times app].
  rewrite (stop_open b1 b _ [b0] []);
    [|cbn; rewrite !lookup_insert_ne by done; apply lookup_insert_eq..|done].
  cbn [InferenceTimer._staged_start_times InferenceTimer._staged_stop_times
       app fst snd].
  split; [done|]. split.
  - rewrite (stage_times_closed _ a [a0] [a1]); [done| | |done]; cbn.
    + apply lookup_insert_eq.
    + rewrite lookup_insert_ne by done. apply lookup_insert_eq.
  - rewrite (stage_times_closed _ b [b0] [b1]); [done| | |done]; cbn.
    + rewrite lookup_insert_ne by done. apply lookup_insert_eq.
    + apply lookup_insert_eq.
Qed.

(** C4.  After any sequence of [start], [stop] and [clear] calls on a fresh
    [InferenceTimer] (a call that raises records nothing), no stage has
    more recorded stops than recorded starts, and a [stop] records a
    timestamp only when the stage has an unmatched start. *)
Theorem stops_never_exceed_starts (calls : list (timer_call F)) stage :
  let self := (run timer_step calls InferenceTimer.init).1 in
  recorded_stops self stage ≤ recorded_starts self stage
  ∧ ∀ now,
      recorded_stops (InferenceTimer.stop now stage self).1 stage
        ≠ recorded_stops self stage →
      unmatched_starts self stage = 1.
Proof.
  intros self.
  assert (timer_wf self) as Hwf by apply run_timer_wf, timer_wf_init.
  split; [by apply timer_wf_counts|].
  intros now Hrec.
  destruct (InferenceTimer.stop now stage self) as [self' r] eqn:Hstop.
  destruct r as [[]|e].
  - apply stop_Return_inv in Hstop as (starts & stops & Hs & Hp & Hlen & _).
    unfold unmatched_starts, recorded_starts, recorded_stops.
    rewrite Hs, Hp. cbn. lia.
  - apply stop_Raise in Hstop as ->. done.
Qed.
End timer_properties.

Section pipeline_properties.
Context {F : Type} `{!FloatOps F}.
Implicit Types (self : PipelineTimer.t F) (stage : string).
Import PipelineTimer.

(** C1.  On a pipeline timer whose snapshots are in a state their methods can
    produce ([pipeline_wf]), when every stage of every tracked snapshot is
    balanced, [times] returns a mapping.  Its keys are the stages of the
    pipeline timer, which are exactly the stages that have an entry in the
    start dictionary of a tracked snapshot, and exactly the stages that have
    a merged sample.  The value of each of them is the sum of its raw
    samples merged across all snapshots divided by the number of merged
    samples. *)
Theorem times_averages_merged_samples self :
  pipeline_wf self →
  Forall balanced (_timers self) →
  ∃ m, times self = Return m
    ∧ dom m = stages self
    ∧ (∀ stage, stage ∈ dom m
         ↔ ∃ timer, timer ∈ _timers self
             ∧ is_Some (InferenceTimer._staged_start_times timer !! stage))
    ∧ (∀ stage, stage ∈ dom m ↔ merged_samples self stage ≠ [])
    ∧ (∀ stage, stage ∈ stages self →
         merged_samples self stage ≠ []
         ∧ m !! stage
           = Some (fdiv (fsum (merged_samples self stage))
                        (length (merged_samples self stage))))
    ∧ ∀ stage, merged_samples self stage ≠ [] →
        m !! stage
        = Some (fdiv (fsum (merged_samples self stage))
                     (length (merged_samples self stage))).
Proof.
  intros Hwf Hb. unfold times.
  destruct (pipeline_all_times self Hb) as (all & -> & Hall). cbn.
  destruct (dict_comp_Return
    (λ stage, match all !! stage with
              | Some l => average l
              | None => Raise KeyError
              end)
    (λ stage, fdiv (fsum (merged_samples self stage))
                   (length (merged_samples self stage)))
    (stages self)) as (m & Hm & Hlook).
  { intros k Hk. rewrite Hall, decide_True by done.
    pose proof (merged_samples_nonempty self k Hwf Hb Hk) as Hne.
    unfold average. rewrite decide_False; [done|].
    by rewrite length_zero_iff_nil. }
  assert (dom m = stages self) as Hdom.
  { apply set_eq. intros k. rewrite elem_of_dom, Hlook.
    case_decide; split; intros Hk; try done; by destruct Hk. }
  assert (∀ stage, stage ∈ stages self
            ↔ ∃ timer, timer ∈ _timers self
                ∧ is_Some (InferenceTimer._staged_start_times timer !! stage))
    as Hstarted.
  { intros stage. rewrite elem_of_pipeline_stages.
    split; intros (timer & Hin & Hk); exists timer; (split; [done|]).
    - unfold InferenceTimer.stages in Hk. by apply elem_of_dom in Hk.
    - unfold InferenceTimer.stages. by apply elem_of_dom. }
  assert (∀ stage, merged_samples self stage ≠ [] → stage ∈ stages self)
    as Hsampled.
  { intros stage Hne. apply Hstarted. by apply merged_samples_started. }
  exists m. split; [done|]. split; [done|]. split; [|split; [|split]].
  - intros stage. by rewrite Hdom.
  - intros stage. rewrite Hdom. split; [|by apply Hsampled].
    by apply merged_samples_nonempty.
  - intros stage Hstage. split; [by apply merged_samples_nonempty|].
    by rewrite Hlook, decide_True.
  - intros stage Hne. by rewrite Hlook, decide_True by by apply Hsampled.
Qed.

(** C5.  On an enabled pipeline timer, [reset()] in multi-inference mode
    appends a fresh empty [InferenceTimer], which becomes the current one,
    and keeps every snapshot tracked before at its index, unchanged; in
    single-inference mode it replaces the first snapshot by an empty one,
    so that a pipeline timer with one snapshot then tracks one empty
    snapshot. *)
Theorem reset_appends_or_clears self :
  _enabled self = true →
  (_multi_inference self = true →
     (reset self).2 = Return ()
     ∧ _timers (reset self).1
       = _timers (_check_start_inference self) ++ [InferenceTimer.init]
     ∧ (_timers self ≠ [] →
        _timers (reset self).1 = _timers self ++ [InferenceTimer.init])
     ∧ current_inference (reset self).1 = Some InferenceTimer.init
     ∧ ∀ i timer, _timers self !! i = Some timer →
                  _timers (reset self).1 !! i = Some timer)
  ∧ (_multi_inference self = false →
     (reset self).2 = Return ()
     ∧ _timers (reset self).1
       = <[0 := InferenceTimer.init]> (_timers (_check_start_inference self))
     ∧ (length (_timers self) ≤ 1 →
        _timers (reset self).1 = [InferenceTimer.init])
     ∧ ∀ i timer, 0 < i → _timers self !! i = Some timer →
                  _timers (reset self).1 !! i = Some timer).
Proof.
  intros He. split; intros Hm.
  - rewrite (reset_multi self He Hm). cbn.
    rewrite check_start_inference_timers. unfold current_inference. cbn.
    rewrite last_snoc. repeat split.
    + by destruct (_timers self).
    + intros i timer Hi. destruct (_timers self) as [|t0 ts] eqn:Ht; [done|].
      by apply lookup_app_l_Some.
  - rewrite (reset_single self He Hm). cbn.
    rewrite check_start_inference_timers. repeat split.
    + intros Hlen. destruct (_timers self) as [|t0 [|t1 ts]]; cbn in *; [done..|lia].
    + intros i timer Hi Hlook. destruct (_timers self) as [|t0 ts] eqn:Ht; [done|].
      rewrite list_lookup_insert_ne by lia. done.
Qed.

(** C6, as amended.  On a fresh enabled multi-inference pipeline timer, [N]
    rounds of [reset()] followed by stage calls leave, for [N >= 1],
    [N + 1] snapshots: an empty one, created by the guard of the first
    [reset()], and then one per round, holding what the calls of that
    round alone record on a fresh [InferenceTimer]; each stage call ends
    as it does on that fresh timer. *)
Theorem rounds_make_one_snapshot_each_after_an_empty_one
    (rounds : list (list (stage_call F))) :
  let result := run pipeline_step (rounds_calls rounds) (init true true) in
  _timers result.1
  = match rounds with
    | [] => []
    | _ => InferenceTimer.init :: (snapshot_of <$> rounds)
    end
  ∧ length (_timers result.1)
    = match rounds with
      | [] => 0
      | _ => S (length rounds)
      end
  ∧ result.2 = concat (outcomes_of <$> rounds).
Proof.
  destruct rounds as [|round rounds]; [done|].
  unfold rounds_calls. cbn [fmap list_fmap concat]. cbv zeta. rewrite run_app.
  rewrite (run_round round (init true true)) by done.
  fold (rounds_calls rounds). cbn [init _check_start_inference current_inference
    _timers last set_timers app _multi_inference _enabled].
  rewrite (run_rounds_current rounds _ [InferenceTimer.init] (snapshot_of round))
    by done.
  cbn. rewrite length_fmap. done.
Qed.

(** C7, as amended.  [current_inference] is the snapshot at the last
    index, or [None] when no snapshot is tracked.  In the latter case, on
    an enabled pipeline timer, each of [reset], [start_inference_stage] and
    [stop_inference_stage] acts as on a pipeline timer that tracks one
    fresh snapshot: the snapshot is created first, and stays even when
    the call then raises. *)
Theorem current_inference_and_implicit_first_snapshot self :
  current_inference self
  = match _timers self with
    | [] => None
    | _ => _timers self !! pred (length (_timers self))
    end
  ∧ (_enabled self = true → _timers self = [] →
     current_inference self = None
     ∧ ∀ c : pipeline_call F,
         pipeline_step c self
         = pipeline_step c (set_timers self [InferenceTimer.init])
         ∧ _timers (pipeline_step c self).1
           = match c with
             | Reset =>
                 if _multi_inference self
                 then [InferenceTimer.init; InferenceTimer.init]
                 else [InferenceTimer.init]
             | StartStage now stage =>
                 [(InferenceTimer.start now stage InferenceTimer.init).1]
             | StopStage now stage => [InferenceTimer.init]
             end
         ∧ (pipeline_step c self).2
           = match c with
             | StopStage _ _ => Raise ValueError
             | _ => Return ()
             end).
Proof.
  split.
  - unfold current_inference. rewrite last_lookup. by destruct (_timers self).
  - intros He Ht. destruct self as [multi enabled timers]. cbn in He, Ht.
    subst. split; [done|]. intros c.
    destruct c as [|now stage|now stage]; cbn.
    + by destruct multi.
    + unfold start_inference_stage. cbn. unfold on_timer. cbn.
      by rewrite (start_new_stage now stage InferenceTimer.init)
        by apply lookup_empty.
    + done.
Qed.

(** C10.  On a pipeline timer whose [enabled] flag is [False], any sequence
    of [reset], [start_inference_stage] and [stop_inference_stage] calls
    returns normally at every call and leaves the pipeline timer, with all
    its snapshots, as it was. *)
Theorem disabled_calls_do_nothing (calls : list (pipeline_call F)) self :
  _enabled self = false →
  run pipeline_step calls self = (self, replicate (length calls) (Return ())).
Proof.
  intros He. induction calls as [|c calls IH]; [done|].
  cbn. by rewrite (pipeline_step_disabled c self He), IH.
Qed.
End pipeline_properties.

(** * The properties on concrete runs *)

Section concrete_runs.
Import PipelineTimer.

(** C1 on the run [demo_pipeline]: its snapshots are well formed and
    balanced, [times] is defined on it and has the key [x], whose merged
    samples are 1, 3 and 8. *)
Lemma times_averages_merged_samples_demo :
  pipeline_wf demo_pipeline
  ∧ Forall balanced (_timers demo_pipeline)
  ∧ merged_samples demo_pipeline "x" ≠ []
  ∧ ∃ m, times demo_pipeline = Return m
      ∧ "x" ∈ dom m
      ∧ m !! "x"
        = Some (fdiv (fsum (merged_samples demo_pipeline "x"))
                     (length (merged_samples demo_pipeline "x"))).
Proof.
  assert (pipeline_wf demo_pipeline) as Hwf
    by (apply (bool_decide_unpack _); vm_compute; exact I).
  assert (Forall balanced (_timers demo_pipeline)) as Hb
    by (apply (bool_decide_unpack _); vm_compute; exact I).
  assert (merged_samples demo_pipeline "x" ≠ []) as Hx
    by (vm_compute; discriminate).
  split; [exact Hwf|]. split; [exact Hb|]. split; [exact Hx|].
  destruct (times_averages_merged_samples demo_pipeline Hwf Hb)
    as (m & Hm & _ & _ & Hkeys & _ & Hval).
  exists m. split; [exact Hm|]. split; [exact (proj2 (Hkeys "x") Hx)|].
  exact (Hval "x" Hx).
Defined.

(** On [demo_pipeline], whose rounds have two samples and one sample of
    stage [x], [times] gives the average 4 of the three merged samples
    1, 3 and 8; the average of the two per-snapshot averages 2 and 8 would
    be 5. *)
Example times_is_not_the_mean_of_means :
  merged_samples demo_pipeline "x" = [1%Q; 3%Q; 8%Q]
  ∧ (m ← times demo_pipeline; mret (m !! "x")) = Return (Some 4%Q)
  ∧ mean_of_means demo_pipeline "x" = Return 5%Q.
Proof. vm_compute. done. Qed.

(** C2 as stated fails: with the clock readings 1, 2 and 3, after
    [start("x")], [start("x")], [stop("x")] on a fresh timer the second
    [start] has raised, no start of [x] is unmatched and the average of
    [x] is computed. *)
Lemma double_start_then_stop_leaves_no_unmatched_start :
  (run timer_step [Start 1%Q "x"; Start 2%Q "x"; Stop 3%Q "x"]
       InferenceTimer.init).2
  = [Return (); Raise ValueError; Return ()]
  ∧ unmatched_starts
      (run timer_step [Start 1%Q "x"; Start 2%Q "x"; Stop 3%Q "x"]
           InferenceTimer.init).1 "x" = 0
  ∧ InferenceTimer.stage_average_time
      (run timer_step [Start 1%Q "x"; Start 2%Q "x"; Stop 3%Q "x"]
           InferenceTimer.init).1 "x" = Return 2%Q.
Proof. vm_compute. done. Qed.

(** C3 on a fresh timer: [stop("x")] before any [start("x")]. *)
Lemma stop_without_unmatched_start_raises_fresh :
  InferenceTimer._staged_start_times (@InferenceTimer.init Q) !! "x" = None
  ∧ InferenceTimer.stop 1%Q "x" InferenceTimer.init
    = (InferenceTimer.init, Raise ValueError).
Proof.
  split; [reflexivity|].
  apply (stop_without_unmatched_start_raises 1%Q "x" InferenceTimer.init).
  left. reflexivity.
Defined.

(** C4 on the run [start("x")]: the next [stop("x")] records a timestamp,
    and one start of [x] is unmatched before it. *)
Lemma stops_never_exceed_starts_one_start :
  recorded_stops
    (InferenceTimer.stop 2%Q "x"
       (run timer_step [Start 1%Q "x"] InferenceTimer.init).1).1 "x"
    ≠ recorded_stops (run timer_step [Start 1%Q "x"] InferenceTimer.init).1 "x"
  ∧ unmatched_starts (run timer_step [Start 1%Q "x"] InferenceTimer.init).1 "x"
    = 1.
Proof.
  assert (recorded_stops
            (InferenceTimer.stop 2%Q "x"
               (run timer_step [Start 1%Q "x"] InferenceTimer.init).1).1 "x"
          ≠ recorded_stops
              (run timer_step [Start 1%Q "x"] InferenceTimer.init).1 "x") as Hrec
    by (vm_compute; discriminate).
  split; [exact Hrec|].
  exact (proj2 (stops_never_exceed_starts [Start 1%Q "x"] "x") 2%Q Hrec).
Defined.

(** C8 on a timer with an open start of [x]. *)
Lemma stage_average_time_without_samples_raises_open :
  recorded_stops (InferenceTimer.start 1%Q "x" InferenceTimer.init).1 "x" = 0
  ∧ ∃ e, InferenceTimer.stage_average_time
           (InferenceTimer.start 1%Q "x" InferenceTimer.init).1 "x" = Raise e.
Proof.
  split; [reflexivity|].
  apply (stage_average_time_without_samples_raises
           (InferenceTimer.start 1%Q "x" InferenceTimer.init).1 "x").
  reflexivity.
Defined.

(** C9 for the stages [total] and [engine_forward]. *)
Lemma nested_stages_are_independent_total_engine :
  "engine_forward" ≠ "total"
  ∧ (run timer_step [Start 1%Q "total"; Start 2%Q "engine_forward";
                     Stop 5%Q "engine_forward"; Stop 9%Q "total"]
         InferenceTimer.init).2
    = [Return (); Return (); Return (); Return ()]
  ∧ InferenceTimer.stage_times
      (run timer_step [Start 1%Q "total"; Start 2%Q "engine_forward";
                       Stop 5%Q "engine_forward"; Stop 9%Q "total"]
           InferenceTimer.init).1 "engine_forward"
    = Return [fsub 5%Q 2%Q]
  ∧ InferenceTimer.stage_times
      (run timer_step [Start 1%Q "total"; Start 2%Q "engine_forward";
                       Stop 5%Q "engine_forward"; Stop 9%Q "total"]
           InferenceTimer.init).1 "total"
    = Return [fsub 9%Q 1%Q].
Proof.
  assert ("engine_forward" ≠ "total") as Hne by discriminate.
  split; [exact Hne|].
  exact (nested_stages_are_independent "engine_forward" "total"
           1%Q 2%Q 5%Q 9%Q Hne).
Defined.

(** C5 on [demo_pipeline], which is enabled, in multi-inference mode and
    tracks three snapshots. *)
Lemma reset_appends_or_clears_demo :
  _enabled demo_pipeline = true
  ∧ _multi_inference demo_pipeline = true
  ∧ _timers demo_pipeline ≠ []
  ∧ _timers (reset demo_pipeline).1
    = _timers demo_pipeline ++ [InferenceTimer.init]
  ∧ current_inference (reset demo_pipeline).1 = Some InferenceTimer.init.
Proof.
  assert (_timers demo_pipeline ≠ []) as Hne by (vm_compute; discriminate).
  destruct (proj1 (reset_appends_or_clears demo_pipeline eq_refl) eq_refl)
    as (_ & _ & Happ & Hcur & _).
  split; [reflexivity|]. split; [reflexivity|]. split; [exact Hne|].
  split; [exact (Happ Hne) | exact Hcur].
Defined.

(** A single-inference pipeline timer with one snapshot: [reset()] leaves
    one empty snapshot. *)
Example reset_clears_the_sole_snapshot :
  _timers (reset (mk false true [snapshot_of [StageStart 1%Q "x";
                                              StageStop 2%Q "x"]])).1
  = [InferenceTimer.init].
Proof. vm_compute. done. Qed.

(** C6 as stated fails: the two rounds of [demo_rounds] leave three
    snapshots, the first of them empty. *)
Lemma two_rounds_leave_three_snapshots :
  length demo_rounds = 2
  ∧ length (_timers demo_pipeline) = 3
  ∧ _timers demo_pipeline !! 0 = Some InferenceTimer.init.
Proof. vm_compute. done. Qed.

(** C7 as stated fails on a disabled pipeline timer: with no snapshot
    tracked, none of the three calls creates one. *)
Lemma disabled_timer_creates_no_snapshot :
  current_inference (@init Q false false) = None
  ∧ current_inference (reset (@init Q false false)).1 = None
  ∧ current_inference (start_inference_stage 1%Q "x" (init false false)).1 = None
  ∧ current_inference (stop_inference_stage 1%Q "x" (init false false)).1 = None.
Proof. vm_compute. done. Qed.

(** C7 on a fresh enabled pipeline timer. *)
Lemma current_inference_and_implicit_first_snapshot_fresh :
  _enabled (@init Q true false) = true
  ∧ _timers (@init Q true false) = []
  ∧ current_inference (@init Q true false) = None
  ∧ _timers (stop_inference_stage 1%Q "x" (init true false)).1
    = [InferenceTimer.init]
  ∧ (stop_inference_stage 1%Q "x" (init true false)).2 = Raise ValueError.
Proof.
  destruct (proj2 (current_inference_and_implicit_first_snapshot
                     (@init Q true false)) eq_refl eq_refl) as [Hnone Hcalls].
  destruct (Hcalls (StopStage 1%Q "x")) as (_ & Htimers & Hraise).
  split; [reflexivity|]. split; [reflexivity|]. split; [exact Hnone|].
  split; [exact Htimers | exact Hraise].
Defined.

(** C10 on a disabled pipeline timer: an unbalanced sequence of calls. *)
Lemma disabled_calls_do_nothing_unbalanced :
  _enabled (@init Q false true) = false
  ∧ run pipeline_step [StopStage 1%Q "x"; StartStage 2%Q "x";
                       StartStage 3%Q "x"; Reset] (init false true)
    = (init false true, [Return (); Return (); Return (); Return ()]).
Proof.
  split; [reflexivity|].
  exact (disabled_calls_do_nothing
           [StopStage 1%Q "x"; StartStage 2%Q "x"; StartStage 3%Q "x"; Reset]
           (init false true) eq_refl).
Defined.

(** The same calls on an enabled pipeline timer: two of them raise. *)
Example enabled_calls_raise_unbalanced :
  (run pipeline_step [StopStage 1%Q "x"; StartStage 2%Q "x";
                      StartStage 3%Q "x"; Reset] (init true true)).2
  = [Raise ValueError; Return (); Raise ValueError; Return ()].
Proof. vm_compute. done. Qed.
End concrete_runs.

(** * Further properties of [InferenceTimer] *)

Section timer_cases.
Context {F : Type}.
Implicit Types (self : InferenceTimer.t F) (stage : string) (now : F).
Import InferenceTimer.

(** A stage of a well-formed timer is absent, closed or open. *)
Lemma timer_wf_cases self stage :
  timer_wf self →
  (_staged_start_times self !! stage = None
   ∧ _staged_stop_times self !! stage = None
   ∧ unmatched_starts self stage = 0)
  ∨ (∃ starts stops,
       _staged_start_times self !! stage = Some starts
       ∧ _staged_stop_times self !! stage = Some stops
       ∧ starts ≠ []
       ∧ length starts = length stops
       ∧ unmatched_starts self stage = 0)
  ∨ (∃ starts stops,
       _staged_start_times self !! stage = Some starts
       ∧ _staged_stop_times self !! stage = Some stops
       ∧ length starts = length stops + 1
       ∧ unmatched_starts self stage = 1).
Proof.
  intros Hwf. unfold unmatched_starts, recorded_starts, recorded_stops.
  destruct (_staged_start_times self !! stage) as [starts|] eqn:Hs.
  - destruct (timer_wf_lookup _ _ _ Hwf Hs) as (stops & Hp & Hne & [Hlen|Hlen]).
    + right. left. exists starts, stops. rewrite Hp. cbn.
      repeat split; [done..|lia].
    + right. right. exists starts, stops. rewrite Hp. cbn.
      repeat split; [done|lia].
  - left. destruct Hwf as [_ Hdom]. apply not_elem_of_dom in Hs.
    assert (_staged_stop_times self !! stage = None) as ->
      by (apply not_elem_of_dom; set_solver).
    done.
Qed.

Lemma start_other now a b self :
  a ≠ b →
  _staged_start_times (start now a self).1 !! b = _staged_start_times self !! b
  ∧ _staged_stop_times (start now a self).1 !! b = _staged_stop_times self !! b.
Proof.
  intros Hab. unfold start.
  destruct (_staged_start_times self !! a) as [starts|] eqn:Hs.
  - rewrite Hs. destruct (_staged_stop_times self !! a); [|done].
    case_decide; [done|]. cbn. by rewrite lookup_insert_ne.
  - cbn. rewrite !lookup_insert_eq. cbn. case_decide; [done|]. cbn.
    by rewrite !lookup_insert_ne.
Qed.

Lemma stop_other now a b self :
  a ≠ b →
  _staged_start_times (stop now a self).1 !! b = _staged_start_times self !! b
  ∧ _staged_stop_times (stop now a self).1 !! b = _staged_stop_times self !! b.
Proof.
  intros Hab. unfold stop.
  destruct (_staged_start_times self !! a); [|done].
  destruct (_staged_stop_times self !! a); [|done].
  case_decide; [done|]. cbn. by rewrite lookup_insert_ne.
Qed.

Lemma start_stages now stage self :
  stages (start now stage self).1 = stages self ∪ {[stage]}.
Proof.
  unfold start, stages.
  destruct (_staged_start_times self !! stage) as [starts|] eqn:Hs.
  - rewrite Hs. apply elem_of_dom_2 in Hs as Hin.
    destruct (_staged_stop_times self !! stage); [case_decide|]; cbn;
      rewrite ?dom_insert_L; set_solver.
  - cbn. rewrite !lookup_insert_eq. cbn. case_decide; [done|]. cbn.
    rewrite !dom_insert_L. set_solver.
Qed.

Lemma stop_stages now stage self :
  stages (stop now stage self).1 = stages self.
Proof.
  unfold stop, stages.
  destruct (_staged_start_times self !! stage); [|done].
  destruct (_staged_stop_times self !! stage); [|done].
  by case_decide.
Qed.

Context `{!FloatOps F}.

Lemma stage_times_lookup_ext self self' stage :
  _staged_start_times self' !! stage = _staged_start_times self !! stage →
  _staged_stop_times self' !! stage = _staged_stop_times self !! stage →
  stage_times self' stage = stage_times self stage.
Proof. intros Hs Hp. unfold stage_times. by rewrite Hs, Hp. Qed.
End timer_cases.

Section timer_extras.
Context {F : Type} `{!FloatOps F}.
Implicit Types (self : InferenceTimer.t F) (stage : string) (now : F).
Import InferenceTimer.

Lemma stage_times_Return_inv self stage samples :
  stage_times self stage = Return samples →
  ∃ starts stops,
    _staged_start_times self !! stage = Some starts
    ∧ _staged_stop_times self !! stage = Some stops
    ∧ length starts = length stops
    ∧ samples = zip_with fsub stops starts.
Proof.
  unfold stage_times.
  destruct (_staged_start_times self !! stage) as [starts|]; [|done].
  destruct (_staged_stop_times self !! stage) as [stops|]; [|done].
  case_decide as Hlen; [done|].
  assert (length starts = length stops) as Hlen' by lia.
  rewrite (deltas_zip _ _ Hlen'). intros [= <-]. by exists starts, stops.
Qed.

(** For a stage of a well-formed timer that has an entry,
    [stage_average_time] raises [ValueError] or returns. *)
Lemma stage_average_time_cases self stage :
  timer_wf self → stage ∈ stages self →
  (unmatched_starts self stage = 1
   ∧ stage_times self stage = Raise ValueError
   ∧ stage_average_time self stage = Raise ValueError)
  ∨ (unmatched_starts self stage = 0
     ∧ ∃ samples, samples ≠ []
        ∧ stage_times self stage = Return samples
        ∧ stage_average_time self stage
          = Return (fdiv (fsum samples) (length samples))).
Proof.
  intros Hwf Hin. unfold stages in Hin. apply elem_of_dom in Hin as [starts' Hs'].
  destruct (timer_wf_cases self stage Hwf)
    as [(Hs & _)|[(starts & stops & Hs & Hp & Hne & Hlen & Hun)
                 |(starts & stops & Hs & Hp & Hlen & Hun)]].
  - congruence.
  - right. split; [done|]. exists (zip_with fsub stops starts).
    assert (zip_with fsub stops starts ≠ []) as Hne'.
    { destruct starts; [done|]. by destruct stops. }
    unfold stage_average_time.
    rewrite (stage_times_closed _ _ _ _ Hs Hp Hlen). cbn.
    repeat split; [done|]. unfold average.
    rewrite decide_False; [done|]. by rewrite length_zero_iff_nil.
  - left. split; [done|]. unfold stage_average_time.
    rewrite (stage_times_open _ _ _ _ Hs Hp) by lia. done.
Qed.

Lemma dict_comp_cases {B} (f : string → outcome B) (e : exn) (keys : gset string) :
  (∀ k, k ∈ keys → f k = Raise e ∨ ∃ v, f k = Return v) →
  (dict_comp f keys = Raise e ∧ ∃ k, k ∈ keys ∧ f k = Raise e)
  ∨ (∃ m : gmap string B, dict_comp f keys = Return m
       ∧ ∀ k, k ∈ keys → ∃ v, f k = Return v ∧ m !! k = Some v).
Proof.
  unfold dict_comp. revert keys.
  apply (set_fold_ind_L (λ r (X : gset string),
    (∀ k, k ∈ X → f k = Raise e ∨ ∃ v, f k = Return v) →
    (r = Raise e ∧ ∃ k, k ∈ X ∧ f k = Raise e)
    ∨ (∃ m : gmap string B, r = Return m
         ∧ ∀ k, k ∈ X → ∃ v, f k = Return v ∧ m !! k = Some v))).
  - intros _. right. exists ∅. split; [done|]. intros k []%not_elem_of_empty.
  - intros x X r Hx IH Hf.
    destruct IH as [(-> & k & Hk & Hraise)|(m & -> & Hm)].
    + intros k Hk. apply Hf. set_solver.
    + left. split; [done|]. exists k. split; [set_solver|done].
    + destruct (Hf x) as [Hraise|[v Hv]]; [set_solver| |].
      * left. cbn. rewrite Hraise. split; [done|]. exists x. split; [set_solver|done].
      * right. exists (<[x := v]> m). cbn. rewrite Hv. split; [done|].
        intros k [->%elem_of_singleton|Hk]%elem_of_union.
        -- exists v. by rewrite lookup_insert_eq.
        -- destruct (Hm k Hk) as (v' & Hv' & Hlook). exists v'. split; [done|].
           rewrite lookup_insert_ne; [done|]. intros ->. done.
Qed.

Lemma dict_comp_ext {B} (f g : string → outcome B) (keys : gset string) :
  (∀ k, k ∈ keys → f k = g k) → dict_comp f keys = dict_comp g keys.
Proof.
  unfold dict_comp, set_fold. cbn. intros Hfg.
  assert (∀ k, k ∈ elements keys → f k = g k) as Hl
    by (intros k Hk; apply Hfg; by apply elem_of_elements).
  clear Hfg. induction (elements keys) as [|k l IH]; [done|].
  cbn. rewrite IH by (intros; apply Hl; by right).
  rewrite (Hl k) by left. done.
Qed.

(** While a stage of a well-formed timer is open, [all_times] raises. *)
Lemma timer_all_times_open self stage :
  timer_wf self → unmatched_starts self stage ≠ 0 →
  all_times self = Raise ValueError.
Proof.
  intros Hwf Hopen.
  destruct (timer_wf_cases self stage Hwf)
    as [(_ & _ & Hun)|[(? & ? & _ & _ & _ & _ & Hun)
                      |(starts & stops & Hs & Hp & Hlen & Hun)]]; [done..|].
  assert (stage ∈ stages self) as Hin by (by apply elem_of_dom_2 in Hs).
  assert (stage_times self stage = Raise ValueError) as Ht
    by (apply (stage_times_open _ _ _ _ Hs Hp); lia).
  destruct (dict_comp_cases (stage_times self) ValueError (stages self))
    as [[? _]|(m & _ & Hm)]; [|done|].
  - intros k Hk. destruct (stage_average_time_cases self k Hwf Hk)
      as [(_ & ? & _)|(_ & samples & _ & ? & _)]; eauto.
  - destruct (Hm stage Hin) as (v & Hv & _). congruence.
Qed.
End timer_extras.

Section timer_further_properties.
Context {F : Type} `{!FloatOps F}.
Implicit Types (self : InferenceTimer.t F) (stage : string) (now : F).
Import InferenceTimer.

(** X1.  On a stage that the timer does not have yet ([samples] is then
    empty), or whose durations [stage_times] returns as [samples], a
    [start] at [t0] followed by a [stop] at [t1] both return, and
    [stage_times] then returns [samples] followed by the one new duration
    [t1 - t0]. *)
Theorem start_then_stop_adds_one_sample (t0 t1 : F) stage self samples :
  (has_stage self stage = false ∧ samples = [])
  ∨ stage_times self stage = Return samples →
  let result := run timer_step [Start t0 stage; Stop t1 stage] self in
  result.2 = [Return (); Return ()]
  ∧ stage_times result.1 stage = Return (samples ++ [fsub t1 t0]).
Proof.
  intros [[Hhas ->]|Hret]; cbn [run timer_step].
  - apply bool_decide_eq_false in Hhas. unfold stages in Hhas.
    apply not_elem_of_dom in Hhas.
    rewrite (start_new_stage t0 stage self Hhas).
    rewrite (stop_open t1 stage _ [t0] []); [|cbn; apply lookup_insert_eq..|done].
    cbn [fst snd app]. split; [done|].
    rewrite (stage_times_closed _ stage [t0] [t1]); [done| | |done]; cbn;
      apply lookup_insert_eq.
  - apply stage_times_Return_inv in Hret as (starts & stops & Hs & Hp & Hlen & ->).
    rewrite (start_closed t0 stage self starts stops Hs Hp Hlen).
    rewrite (stop_open t1 stage _ (starts ++ [t0]) stops);
      [|cbn; by rewrite ?lookup_insert_eq..|rewrite length_app; cbn; lia].
    cbn [fst snd]. split; [done|].
    rewrite (stage_times_closed _ stage (starts ++ [t0]) (stops ++ [t1]));
      [|cbn; apply lookup_insert_eq..|rewrite !length_app; cbn; lia].
    by rewrite zip_with_app.
Qed.

(** X2.  A [start] or a [stop] of stage [a], whether it returns or raises,
    leaves every other stage [b] as it was: the same result of
    [stage_times], the same counts of starts and stops, the same answer of
    [has_stage]. *)
Theorem calls_on_a_stage_leave_other_stages now (a b : string) self :
  a ≠ b →
  stage_times (start now a self).1 b = stage_times self b
  ∧ stage_times (stop now a self).1 b = stage_times self b
  ∧ recorded_starts (start now a self).1 b = recorded_starts self b
  ∧ recorded_stops (start now a self).1 b = recorded_stops self b
  ∧ recorded_starts (stop now a self).1 b = recorded_starts self b
  ∧ recorded_stops (stop now a self).1 b = recorded_stops self b
  ∧ has_stage (start now a self).1 b = has_stage self b
  ∧ has_stage (stop now a self).1 b = has_stage self b.
Proof.
  intros Hab.
  destruct (start_other now a b self Hab) as [Hs1 Hp1].
  destruct (stop_other now a b self Hab) as [Hs2 Hp2].
  unfold recorded_starts, recorded_stops, has_stage.
  rewrite Hs1, Hp1, Hs2, Hp2, start_stages, stop_stages.
  repeat split; try by apply stage_times_lookup_ext.
  apply bool_decide_ext. set_solver.
Qed.

(** X3.  On a well-formed timer, [start(stage)] returns and opens the stage
    when the stage has no unmatched start, adding one recorded start;
    otherwise it raises [ValueError] and leaves the timer as it was. *)
Theorem start_opens_or_raises now stage self :
  timer_wf self →
  (unmatched_starts self stage = 0 →
     (start now stage self).2 = Return ()
     ∧ unmatched_starts (start now stage self).1 stage = 1
     ∧ recorded_starts (start now stage self).1 stage
       = S (recorded_starts self stage)
     ∧ recorded_stops (start now stage self).1 stage = recorded_stops self stage)
  ∧ (unmatched_starts self stage ≠ 0 →
     start now stage self = (self, Raise ValueError)).
Proof.
  intros Hwf.
  destruct (timer_wf_cases self stage Hwf)
    as [(Hs & Hp & Hun)|[(starts & stops & Hs & Hp & Hne & Hlen & Hun)
                        |(starts & stops & Hs & Hp & Hlen & Hun)]].
  - split; [intros _|by rewrite Hun].
    rewrite (start_new_stage now stage self Hs).
    unfold unmatched_starts, recorded_starts, recorded_stops. cbn.
    by rewrite !lookup_insert_eq, Hs, Hp.
  - split; [intros _|by rewrite Hun].
    rewrite (start_closed now stage self starts stops Hs Hp Hlen).
    unfold unmatched_starts, recorded_starts, recorded_stops. cbn.
    rewrite lookup_insert_eq, Hs, Hp. cbn. rewrite length_app. cbn.
    repeat split; lia.
  - split; [by rewrite Hun|intros _].
    apply (start_open now stage self starts stops Hs Hp). lia.
Qed.

(** X4.  After any sequence of [start], [stop] and [clear] calls on a fresh
    timer a stage has at most one unmatched start, and a stage that the
    timer has was started at least once. *)
Theorem at_most_one_unmatched_start (calls : list (timer_call F)) stage :
  let self := (run timer_step calls init).1 in
  unmatched_starts self stage ≤ 1
  ∧ (has_stage self stage = true → 1 ≤ recorded_starts self stage).
Proof.
  intros self.
  assert (timer_wf self) as Hwf by apply run_timer_wf, timer_wf_init.
  split.
  - pose proof (timer_wf_counts self stage Hwf). unfold unmatched_starts. lia.
  - intros Hhas%bool_decide_eq_true. unfold stages in Hhas.
    apply elem_of_dom in Hhas as [starts Hs].
    destruct (timer_wf_lookup _ _ _ Hwf Hs) as (_ & _ & Hne & _).
    unfold recorded_starts. rewrite Hs. cbn. destruct starts; [done|cbn; lia].
Qed.

(** X5.  The stages of a timer after a sequence of calls are the stages it
    had, plus those started, counted from the last [clear()]: a [start]
    registers its stage even when it raises, a [stop] never adds or removes
    a stage. *)
Theorem stages_follow_the_starts (calls : list (timer_call F)) self :
  stages (run timer_step calls self).1 = started_stages calls (stages self).
Proof.
  revert self. induction calls as [|c calls IH]; intros self; [done|].
  cbn [run]. destruct (timer_step c self) as [self1 r] eqn:Hstep.
  specialize (IH self1). destruct (run timer_step calls self1) as [self2 rs].
  cbn in *. rewrite IH. destruct c as [now stage|now stage|]; cbn in Hstep.
  - by rewrite <-(start_stages now stage self), Hstep.
  - by rewrite <-(stop_stages now stage self), Hstep.
  - by injection Hstep as <- _.
Qed.

(** X6.  On a well-formed timer, [stage_average_time(stage)] returns a
    number exactly when the timer has the stage and the stage has no
    unmatched start; the number is then the sum of the durations of the
    stage divided by their count, which is not zero. *)
Theorem stage_average_time_returns_iff_closed self stage :
  timer_wf self →
  ((∃ v, stage_average_time self stage = Return v)
   ↔ has_stage self stage = true ∧ unmatched_starts self stage = 0)
  ∧ ∀ v, stage_average_time self stage = Return v →
      ∃ samples, stage_times self stage = Return samples
        ∧ samples ≠ []
        ∧ v = fdiv (fsum samples) (length samples).
Proof.
  intros Hwf. destruct (decide (stage ∈ stages self)) as [Hin|Hnin].
  - destruct (stage_average_time_cases self stage Hwf Hin)
      as [(Hun & Ht & Ha)|(Hun & samples & Hne & Ht & Ha)].
    + rewrite Ha, Hun. split; [|done]. split; [by intros [? ?]|by intros [_ ?]].
    + rewrite Ha, Hun. split.
      * split; [intros _|by eexists]. split; [by apply bool_decide_eq_true|done].
      * intros v [= <-]. by exists samples.
  - assert (stage_average_time self stage = Raise ValueError) as ->.
    { unfold stage_average_time. rewrite stage_times_unstarted; [done|].
      by apply not_elem_of_dom. }
    split; [|done]. split; [by intros [? ?]|].
    intros [Hhas%bool_decide_eq_true _]. done.
Qed.

(** X7.  On a well-formed timer whose stages are all balanced, [all_times]
    and [times] return mappings over exactly the stages of the timer:
    [all_times] gives each stage its durations, [times] their average. *)
Theorem timer_times_of_balanced self :
  timer_wf self → balanced self →
  ∃ durations averages,
    all_times self = Return durations
    ∧ times self = Return averages
    ∧ dom durations = stages self
    ∧ dom averages = stages self
    ∧ ∀ stage, stage ∈ stages self →
        ∃ samples, samples ≠ []
          ∧ stage_times self stage = Return samples
          ∧ durations !! stage = Some samples
          ∧ averages !! stage = Some (fdiv (fsum samples) (length samples)).
Proof.
  intros Hwf Hb.
  assert (∀ k, k ∈ stages self →
            unmatched_starts self k = 0
            ∧ ∃ samples, samples ≠ []
                ∧ stage_times self k = Return samples
                ∧ stage_average_time self k
                  = Return (fdiv (fsum samples) (length samples))) as Hclosed.
  { intros k Hk. destruct (stage_average_time_cases self k Hwf Hk)
      as [(_ & Ht & _)|?]; [|done].
    by rewrite (stage_times_balanced self k Hb Hk) in Ht. }
  destruct (dict_comp_cases (stage_times self) ValueError (stages self))
    as [(_ & k & Hk & Hraise)|(durations & Hd & Hdl)].
  { intros k Hk. right. destruct (Hclosed k Hk) as (_ & samples & _ & ? & _). eauto. }
  { destruct (Hclosed k Hk) as (_ & samples & _ & ? & _). congruence. }
  destruct (dict_comp_cases (stage_average_time self) ValueError (stages self))
    as [(_ & k & Hk & Hraise)|(averages & Ha & Hal)].
  { intros k Hk. right. destruct (Hclosed k Hk) as (_ & samples & _ & _ & ?). eauto. }
  { destruct (Hclosed k Hk) as (_ & samples & _ & _ & ?). congruence. }
  destruct (all_times_balanced self Hb) as (durations' & Hd' & Hdl').
  assert (durations' = durations) as -> by (unfold all_times in *; congruence).
  exists durations, averages. split; [done|]. split; [done|].
  assert (dom durations = stages self) as Hdom.
  { apply set_eq. intros k. rewrite elem_of_dom, Hdl'.
    case_decide; split; intros Hk; try done; by destruct Hk. }
  split; [done|]. split.
  - destruct (dict_comp_Return (stage_average_time self)
      (λ k, match stage_average_time self k with
            | Return v => v
            | Raise _ => fdiv (fsum []) 0
            end) (stages self)) as (m & Hm & Hlook).
    { intros k Hk. destruct (Hclosed k Hk) as (_ & samples & _ & _ & ->). done. }
    assert (m = averages) as -> by (unfold times in *; congruence).
    apply set_eq. intros k. rewrite elem_of_dom, Hlook.
    case_decide; split; intros Hk; try done; by destruct Hk.
  - intros stage Hstage.
    destruct (Hclosed stage Hstage) as (_ & samples & Hne & Ht & Havg).
    exists samples. split; [done|]. split; [done|]. split.
    + destruct (Hdl stage Hstage) as (v & Hv & ->). congruence.
    + destruct (Hal stage Hstage) as (v & Hv & ->). congruence.
Qed.

(** X8.  On a well-formed timer, as long as one stage has an unmatched
    start both [all_times] and [times] raise [ValueError]: the averages of
    the closed stages cannot be read through them while any stage is
    open. *)
Theorem timer_times_raise_while_a_stage_is_open self stage :
  timer_wf self → unmatched_starts self stage ≠ 0 →
  all_times self = Raise ValueError ∧ times self = Raise ValueError.
Proof.
  intros Hwf Hopen. split; [by apply (timer_all_times_open self stage)|].
  destruct (timer_wf_cases self stage Hwf)
    as [(_ & _ & Hun)|[(? & ? & _ & _ & _ & _ & Hun)
                      |(starts & stops & Hs & Hp & Hlen & Hun)]]; [done..|].
  assert (stage ∈ stages self) as Hin by (by apply elem_of_dom_2 in Hs).
  assert (stage_average_time self stage = Raise ValueError) as Ha.
  { unfold stage_average_time.
    rewrite (stage_times_open _ _ _ _ Hs Hp) by lia. done. }
  destruct (dict_comp_cases (stage_average_time self) ValueError (stages self))
    as [[? _]|(m & _ & Hm)]; [|done|].
  - intros k Hk. destruct (stage_average_time_cases self k Hwf Hk)
      as [(_ & _ & ?)|(_ & samples & _ & _ & ?)]; eauto.
  - destruct (Hm stage Hin) as (v & Hv & _). congruence.
Qed.
End timer_further_properties.

(** * Further properties of [PipelineTimer] *)

Section pipeline_steps.
Context {F : Type}.
Implicit Types (self : PipelineTimer.t F) (timer cur : InferenceTimer.t F).
Import PipelineTimer.

Lemma check_start_inference_enabled self :
  _enabled (_check_start_inference self) = _enabled self.
Proof. by rewrite check_start_inference_eq. Qed.

Lemma check_start_inference_in_use self :
  ∃ earlier,
    _timers (_check_start_inference self) = earlier ++ [snapshot_in_use self]
    ∧ ((_timers self = [] ∧ earlier = [])
       ∨ _timers self = earlier ++ [snapshot_in_use self]).
Proof.
  rewrite check_start_inference_timers. unfold snapshot_in_use, current_inference.
  destruct (_timers self) as [|timer timers _] using rev_ind.
  - exists []. split; [done|]. by left.
  - exists timers. rewrite last_snoc. cbn.
    split; [by destruct timers|by right].
Qed.

Lemma check_start_inference_idem self :
  _check_start_inference (_check_start_inference self)
  = _check_start_inference self.
Proof.
  destruct (check_start_inference_in_use self) as (earlier & Ht & _).
  by apply (check_start_inference_id _ earlier (snapshot_in_use self)).
Qed.

(** A call on an enabled pipeline timer acts as on the pipeline timer the
    guard leaves. *)
Lemma pipeline_step_guard (c : pipeline_call F) self :
  _enabled self = true →
  pipeline_step c self = pipeline_step c (_check_start_inference self).
Proof.
  intros He. destruct c; cbn;
    unfold reset, start_inference_stage, stop_inference_stage;
    by rewrite check_start_inference_enabled, He, check_start_inference_idem.
Qed.

Lemma on_timer_flags_length {A} i
    (method : InferenceTimer.t F → InferenceTimer.t F * outcome A) self :
  _enabled (on_timer i method self).1 = _enabled self
  ∧ _multi_inference (on_timer i method self).1 = _multi_inference self
  ∧ length (_timers (on_timer i method self).1) = length (_timers self)
  ∧ ∀ j, j ≠ i → _timers (on_timer i method self).1 !! j = _timers self !! j.
Proof.
  unfold on_timer. destruct (_timers self !! i) as [timer|]; [|done].
  destruct (method timer) as [timer' r]. cbn.
  rewrite length_insert. repeat split.
  intros j Hj. by rewrite list_lookup_insert_ne.
Qed.

(** What every call keeps: the two flags, the number of snapshots up to the
    ones it adds, and every snapshot before the last one, except for a
    single-inference [reset()], which rewrites the first. *)
Lemma pipeline_step_frame (c : pipeline_call F) self :
  _enabled (pipeline_step c self).1 = _enabled self
  ∧ _multi_inference (pipeline_step c self).1 = _multi_inference self
  ∧ length (_timers self) ≤ length (_timers (pipeline_step c self).1)
  ∧ (_multi_inference self = false → length (_timers self) ≤ 1 →
     length (_timers (pipeline_step c self).1) ≤ 1)
  ∧ (_multi_inference self = true ∨ c ≠ Reset →
     ∀ i, S i < length (_timers self) →
          _timers (pipeline_step c self).1 !! i = _timers self !! i).
Proof.
  destruct (_enabled self) eqn:He.
  2:{ rewrite (pipeline_step_disabled c self He). cbn. rewrite He.
      repeat split; done. }
  pose proof (check_start_inference_timers self) as Hcheck.
  pose proof (check_start_inference_enabled self) as Hce.
  pose proof (check_start_inference_multi self) as Hcm.
  assert (length (_timers self) ≤ length (_timers (_check_start_inference self))
          ∧ (length (_timers self) ≤ 1 →
             length (_timers (_check_start_inference self)) = 1))
    as (Hlen & Hone).
  { rewrite Hcheck. destruct (_timers self) as [|t0 [|t1 ts]]; cbn;
      split; intros; lia. }
  assert (∀ i, S i < length (_timers self) →
            _timers (_check_start_inference self) !! i = _timers self !! i
            ∧ i ≠ pred (length (_timers (_check_start_inference self)))) as Hold.
  { rewrite Hcheck. intros i Hi. destruct (_timers self); cbn in *; [lia|].
    split; [done|lia]. }
  destruct c as [|now stage|now stage]; cbn;
    unfold reset, start_inference_stage, stop_inference_stage, multi_inference;
    rewrite He; cbn.
  - rewrite Hcm. destruct (_multi_inference self) eqn:Hm; cbn.
    + rewrite Hce, Hcm, length_app. cbn.
      repeat split; [done|lia|done|].
      intros _ i Hi. destruct (Hold i Hi) as [<- _].
      apply lookup_app_l. lia.
    + destruct (on_timer_flags_length 0 InferenceTimer.clear
                  (_check_start_inference self)) as (-> & -> & -> & _).
      rewrite Hce, Hcm.
      repeat split; [done|lia|intros _ Hle; rewrite Hone; lia|].
      intros [?|?]; done.
  - destruct (on_timer_flags_length
                (pred (length (_timers (_check_start_inference self))))
                (InferenceTimer.start now stage)
                (_check_start_inference self)) as (-> & -> & -> & Hother).
    rewrite Hce, Hcm.
    repeat split; [done|lia|intros _ Hle; rewrite Hone; lia|].
    intros _ i Hi. destruct (Hold i Hi) as [<- Hne]. by apply Hother.
  - destruct (on_timer_flags_length
                (pred (length (_timers (_check_start_inference self))))
                (InferenceTimer.stop now stage)
                (_check_start_inference self)) as (-> & -> & -> & Hother).
    rewrite Hce, Hcm.
    repeat split; [done|lia|intros _ Hle; rewrite Hone; lia|].
    intros _ i Hi. destruct (Hold i Hi) as [<- Hne]. by apply Hother.
Qed.
End pipeline_steps.

Section pipeline_runs.
Context {F : Type}.
Implicit Types (self : PipelineTimer.t F) (timer cur : InferenceTimer.t F).
Import PipelineTimer.

Lemma run_pipeline_frame (calls : list (pipeline_call F)) self :
  _enabled (run pipeline_step calls self).1 = _enabled self
  ∧ _multi_inference (run pipeline_step calls self).1 = _multi_inference self
  ∧ length (_timers self) ≤ length (_timers (run pipeline_step calls self).1)
  ∧ (_multi_inference self = false → length (_timers self) ≤ 1 →
     length (_timers (run pipeline_step calls self).1) ≤ 1)
  ∧ (_multi_inference self = true →
     ∀ i, S i < length (_timers self) →
          _timers (run pipeline_step calls self).1 !! i = _timers self !! i).
Proof.
  revert self. induction calls as [|c calls IH]; intros self.
  - cbn. repeat split; auto.
  - cbn [run].
    destruct (pipeline_step_frame c self) as (He & Hm & Hlen & Hone & Hold).
    destruct (pipeline_step c self) as [self1 r]. cbn [fst] in *.
    destruct (IH self1) as (He' & Hm' & Hlen' & Hone' & Hold').
    destruct (run pipeline_step calls self1) as [self2 rs]. cbn [fst] in *.
    rewrite He', Hm', He, Hm. repeat split; [lia| |].
    + intros Hf Hle. apply Hone'; [congruence|]. by apply Hone.
    + intros Ht i Hi. rewrite Hold' by (congruence || lia).
      apply Hold; [by left|done].
Qed.

(** Stage calls on an enabled pipeline timer are the same calls on the
    snapshot in use. *)
Lemma record_in_use (round : list (stage_call F)) self :
  _enabled self = true → round ≠ [] →
  ∃ earlier,
    _timers (_check_start_inference self) = earlier ++ [snapshot_in_use self]
    ∧ run pipeline_step (on_pipeline <$> round) self
      = (set_timers self
           (earlier ++ [(run timer_step (on_inference <$> round)
                             (snapshot_in_use self)).1]),
         (run timer_step (on_inference <$> round) (snapshot_in_use self)).2).
Proof.
  intros He Hne. destruct (check_start_inference_in_use self) as (earlier & Ht & _).
  exists earlier. split; [done|].
  destruct round as [|c round]; [done|].
  assert (run pipeline_step (on_pipeline <$> c :: round) self
          = run pipeline_step (on_pipeline <$> c :: round)
                (_check_start_inference self)) as ->.
  { cbn [fmap list_fmap run]. by rewrite (pipeline_step_guard _ self He). }
  rewrite (record_current (c :: round) (_check_start_inference self)
             earlier (snapshot_in_use self));
    [|by rewrite check_start_inference_enabled|done].
  by rewrite set_timers_check.
Qed.
End pipeline_runs.

Section pipeline_failures.
Context {F : Type} `{!FloatOps F}.
Implicit Types (self : PipelineTimer.t F) (timer : InferenceTimer.t F).
Implicit Types (timers : list (InferenceTimer.t F)).
Implicit Types (acc : gmap string (list F)).

Lemma all_times_loop_Raise timers (e : exn) :
  foldl (λ r timer,
           m ← r;
           timer_times ← InferenceTimer.all_times timer;
           PipelineTimer.extend_all m timer_times) (Raise e) timers
  = Raise e.
Proof. induction timers as [|timer timers IH]; [done|]. exact IH. Qed.

Lemma balanced_unmatched timer stage :
  balanced timer → unmatched_starts timer stage = 0.
Proof.
  intros Hb. unfold unmatched_starts, recorded_starts, recorded_stops.
  destruct (InferenceTimer._staged_start_times timer !! stage) as [starts|] eqn:Hs;
    [|done].
  destruct (balanced_lookup _ _ _ Hb Hs) as (stops & -> & Hlen). cbn. lia.
Qed.

Lemma all_times_loop_open timers acc timer stage :
  Forall timer_wf timers →
  (∀ timer, timer ∈ timers → InferenceTimer.stages timer ⊆ dom acc) →
  timer ∈ timers → unmatched_starts timer stage ≠ 0 →
  foldl (λ r timer,
           m ← r;
           timer_times ← InferenceTimer.all_times timer;
           PipelineTimer.extend_all m timer_times) (Return acc) timers
  = Raise ValueError.
Proof.
  revert acc. induction timers as [|timer' timers IH]; intros acc Hwf Hdom Hin Hopen.
  - by apply elem_of_nil in Hin.
  - apply Forall_cons in Hwf as [Hwf' Hwf]. cbn [foldl].
    destruct (decide (balanced timer')) as [Hb|Hnb].
    + destruct (all_times_balanced timer' Hb) as (mt & Hmt & Hlook).
      assert (dom mt ⊆ dom acc) as Hsub.
      { intros k [l Hk]%elem_of_dom. rewrite Hlook in Hk.
        case_decide; [|done]. apply (Hdom timer'); [left|done]. }
      destruct (extend_all_Return acc mt Hsub) as (acc1 & Hacc1 & Hlook1).
      assert (dom acc1 = dom acc) as Hdom1.
      { apply set_eq. intros k. rewrite !elem_of_dom, Hlook1.
        destruct (acc !! k); cbn; split; intros [? ?]; by eauto. }
      apply elem_of_cons in Hin as [->|Hin].
      { by rewrite (balanced_unmatched timer' stage Hb) in Hopen. }
      cbn. rewrite Hmt. cbn. rewrite Hacc1. apply IH; [done| |done..].
      intros timer'' Hin''. rewrite Hdom1. apply Hdom. by right.
    + apply map_not_Forall in Hnb as (stage' & starts & Hs & Hnb); [|apply _].
      assert (unmatched_starts timer' stage' ≠ 0) as Hopen'.
      { destruct (timer_wf_cases timer' stage' Hwf')
          as [(Hs' & _)|[(starts' & stops' & Hs' & Hp' & _ & Hlen & _)
                        |(? & ? & _ & _ & _ & ->)]]; [congruence| |done].
        exfalso. apply Hnb. unfold stage_balancedb. rewrite Hp'.
        apply bool_decide_eq_true. congruence. }
      cbn. rewrite (timer_all_times_open timer' stage' Hwf' Hopen'). cbn.
      apply all_times_loop_Raise.
Qed.
End pipeline_failures.

Section pipeline_further_properties.
Context {F : Type} `{!FloatOps F}.
Implicit Types (self : PipelineTimer.t F) (timer : InferenceTimer.t F).
Import PipelineTimer.

(** X9.  On a pipeline timer whose snapshots are well formed, as long as one
    tracked snapshot has a stage with an unmatched start, both [all_times]
    and [times] raise [ValueError], whatever the other snapshots hold. *)
Theorem pipeline_times_raise_while_a_stage_is_open self timer stage :
  pipeline_wf self →
  timer ∈ _timers self → unmatched_starts timer stage ≠ 0 →
  all_times self = Raise ValueError ∧ times self = Raise ValueError.
Proof.
  intros Hwf Hin Hopen.
  assert (all_times self = Raise ValueError) as Hall.
  { unfold all_times.
    apply (all_times_loop_open _ _ timer stage); [done| |done..].
    intros timer' Hin' k Hk. rewrite dom_gset_to_gmap.
    apply elem_of_pipeline_stages. by exists timer'. }
  split; [done|]. unfold times. by rewrite Hall.
Qed.

(** X10.  A pipeline timer that tracks one snapshot, all of whose stages are
    balanced, aggregates to what the snapshot reports itself: [times] of
    the pipeline timer is [times] of the snapshot. *)
Theorem pipeline_times_of_one_snapshot self timer :
  _timers self = [timer] → balanced timer →
  times self = InferenceTimer.times timer.
Proof.
  intros Ht Hb.
  assert (Forall balanced (_timers self)) as Hbs
    by (rewrite Ht; by apply Forall_singleton).
  assert (stages self = InferenceTimer.stages timer) as Hstages.
  { unfold stages. rewrite Ht. cbn. by rewrite union_empty_l_L. }
  unfold times, InferenceTimer.times.
  destruct (pipeline_all_times self Hbs) as (m & -> & Hlook). cbn.
  rewrite Hstages. apply dict_comp_ext. intros k Hk.
  rewrite Hlook, Hstages, decide_True by done.
  unfold merged_samples. rewrite Ht. cbn. rewrite app_nil_r.
  unfold InferenceTimer.stage_average_time.
  by rewrite (stage_times_balanced timer k Hb Hk).
Qed.

(** X11.  A single-inference pipeline timer that tracks at most one snapshot
    still tracks at most one after any sequence of [reset],
    [start_inference_stage] and [stop_inference_stage] calls. *)
Theorem single_inference_keeps_one_snapshot (calls : list (pipeline_call F)) self :
  _multi_inference self = false → length (_timers self) ≤ 1 →
  length (_timers (run pipeline_step calls self).1) ≤ 1.
Proof.
  intros Hm Hlen.
  by apply (proj1 (proj2 (proj2 (proj2 (run_pipeline_frame calls self))))).
Qed.

(** X12.  In multi-inference mode a snapshot that is not the current one is
    never changed again: after any sequence of calls it is found at its
    index as it was. *)
Theorem earlier_snapshots_are_frozen (calls : list (pipeline_call F)) self i timer :
  _multi_inference self = true →
  _timers self !! i = Some timer → S i < length (_timers self) →
  _timers (run pipeline_step calls self).1 !! i = Some timer.
Proof.
  intros Hm Hi Hlt.
  by rewrite (proj2 (proj2 (proj2 (proj2 (run_pipeline_frame calls self)))) Hm i Hlt).
Qed.

(** X13.  On an enabled pipeline timer, a non-empty sequence of
    [start_inference_stage] and [stop_inference_stage] calls gives the
    outcomes, and leaves as current snapshot the timer, that the same
    [start] and [stop] calls give on the snapshot in use (the current one, or
    a fresh one when none is tracked); the snapshots before it stay as they
    were and none is added beyond the first. *)
Theorem stage_calls_act_on_the_snapshot_in_use (round : list (stage_call F)) self :
  _enabled self = true → round ≠ [] →
  let result := run pipeline_step (on_pipeline <$> round) self in
  let recorded := run timer_step (on_inference <$> round) (snapshot_in_use self) in
  result.2 = recorded.2
  ∧ current_inference result.1 = Some recorded.1
  ∧ length (_timers result.1) = max 1 (length (_timers self))
  ∧ ∀ i, S i < length (_timers self) →
         _timers result.1 !! i = _timers self !! i.
Proof.
  intros He Hne. cbv zeta.
  destruct (record_in_use round self He Hne) as (earlier & Ht & ->).
  destruct (check_start_inference_in_use self) as (earlier' & Ht' & Hcases).
  assert (earlier' = earlier) as ->.
  { rewrite Ht in Ht'. by apply app_inj_tail in Ht' as [? _]. }
  cbn [fst snd set_timers _timers]. unfold current_inference, set_timers.
  cbn [_timers]. rewrite last_snoc, length_app. cbn [length].
  split; [done|]. split; [done|].
  destruct Hcases as [[-> ->] | ->].
  - cbn. split; [done|]. intros i Hi. lia.
  - rewrite length_app. cbn [length]. split; [lia|].
    intros i Hi. rewrite !lookup_app_l by (cbn in Hi; lia).
    done.
Qed.

(** X14.  No sequence of [reset], [start_inference_stage] and
    [stop_inference_stage] calls changes the flags [enabled] and
    [multi_inference], and none makes the pipeline timer track fewer
    snapshots. *)
Theorem calls_keep_flags_and_snapshots (calls : list (pipeline_call F)) self :
  let result := run pipeline_step calls self in
  enabled result.1 = enabled self
  ∧ multi_inference result.1 = multi_inference self
  ∧ length (inferences self) ≤ length (inferences result.1).
Proof.
  destruct (run_pipeline_frame calls self) as (He & Hm & Hlen & _).
  done.
Qed.
End pipeline_further_properties.

Section pipeline_reset_aggregate.
Context {F : Type} `{!FloatOps F}.
Implicit Types (self : PipelineTimer.t F) (timer : InferenceTimer.t F).
Implicit Types (timers : list (InferenceTimer.t F)).
Import PipelineTimer.

Lemma all_times_init : InferenceTimer.all_times (@InferenceTimer.init F) = Return ∅.
Proof.
  unfold InferenceTimer.all_times, InferenceTimer.stages, dict_comp. cbn.
  by rewrite dom_empty_L, set_fold_empty.
Qed.

Lemma extend_all_empty (m : gmap string (list F)) : extend_all m ∅ = Return m.
Proof. unfold extend_all. by rewrite map_fold_empty. Qed.

(** A fresh snapshot at the end changes neither the stages nor the merged
    durations. *)
Lemma aggregate_snoc_init self timers :
  stages (set_timers self (timers ++ [InferenceTimer.init]))
  = stages (set_timers self timers)
  ∧ all_times (set_timers self (timers ++ [InferenceTimer.init]))
    = all_times (set_timers self timers)
  ∧ times (set_timers self (timers ++ [InferenceTimer.init]))
    = times (set_timers self timers).
Proof.
  assert (stages (set_timers self (timers ++ [InferenceTimer.init]))
          = stages (set_timers self timers)) as Hstages.
  { unfold stages. cbn. rewrite foldl_app. cbn.
    unfold InferenceTimer.stages at 1. cbn. by rewrite dom_empty_L, union_empty_r_L. }
  assert (all_times (set_timers self (timers ++ [InferenceTimer.init]))
          = all_times (set_timers self timers)) as Hall.
  { unfold all_times. rewrite Hstages. cbn [set_timers _timers].
    rewrite foldl_app. cbn [foldl]. rewrite all_times_init.
    destruct (foldl _ _ timers) as [m|e]; [|done].
    cbn. apply extend_all_empty. }
  split; [done|]. split; [done|].
  unfold times. by rewrite Hall, Hstages.
Qed.

(** X15.  On an enabled single-inference pipeline timer that tracks at most
    one snapshot, [reset()] forgets every timing: afterwards the pipeline
    timer has no stage and [times] returns the empty mapping. *)
Theorem single_inference_reset_forgets_timings self :
  _enabled self = true → _multi_inference self = false →
  length (_timers self) ≤ 1 →
  stages (reset self).1 = ∅
  ∧ all_times (reset self).1 = Return ∅
  ∧ times (reset self).1 = Return ∅.
Proof.
  intros He Hm Hlen. rewrite (reset_single self He Hm). cbn [fst].
  rewrite check_start_inference_timers.
  assert (<[0:=InferenceTimer.init]>
            match _timers self with
            | [] => [InferenceTimer.init]
            | _ :: _ => _timers self
            end = [] ++ [@InferenceTimer.init F]) as ->.
  { destruct (_timers self) as [|t0 [|t1 ts]]; cbn in *; [done..|lia]. }
  destruct (aggregate_snoc_init self []) as (-> & -> & ->).
  unfold times, all_times, stages, dict_comp. cbn.
  by rewrite set_fold_empty, gset_to_gmap_empty.
Qed.

(** X16.  On an enabled multi-inference pipeline timer, [reset()] does not
    change what the pipeline timer reports: [stages], [all_times] and
    [times] give after it what they gave before, a raised exception
    included. *)
Theorem multi_inference_reset_keeps_the_aggregate self :
  _enabled self = true → _multi_inference self = true →
  stages (reset self).1 = stages self
  ∧ all_times (reset self).1 = all_times self
  ∧ times (reset self).1 = times self.
Proof.
  intros He Hm. rewrite (reset_multi self He Hm). cbn [fst].
  destruct (aggregate_snoc_init self (_timers (_check_start_inference self)))
    as (-> & -> & ->).
  rewrite check_start_inference_timers.
  destruct (_timers self) as [|t0 ts] eqn:Ht.
  - destruct (aggregate_snoc_init self []) as (Hs & Ha & Hti). cbn [app] in *.
    rewrite Hs, Ha, Hti.
    assert (set_timers self [] = self) as -> by (destruct self; cbn in *; by subst).
    done.
  - assert (set_timers self (t0 :: ts) = self) as ->
      by (destruct self; cbn in *; by subst).
    done.
Qed.
End pipeline_reset_aggregate.

(** * The further properties on concrete runs *)

Section further_concrete_runs.
Import PipelineTimer.

(** X1 on a timer that already has the duration 1 for stage [x]. *)
Lemma start_then_stop_adds_one_sample_second :
  InferenceTimer.stage_times
    (snapshot_of [StageStart 1%Q "x"; StageStop 2%Q "x"]) "x" = Return [1%Q]
  ∧ (run timer_step [Start 5%Q "x"; Stop 9%Q "x"]
         (snapshot_of [StageStart 1%Q "x"; StageStop 2%Q "x"])).2
    = [Return (); Return ()]
  ∧ InferenceTimer.stage_times
      (run timer_step [Start 5%Q "x"; Stop 9%Q "x"]
           (snapshot_of [StageStart 1%Q "x"; StageStop 2%Q "x"])).1 "x"
    = Return ([1%Q] ++ [fsub 9%Q 5%Q]).
Proof.
  assert (InferenceTimer.stage_times
            (snapshot_of [StageStart 1%Q "x"; StageStop 2%Q "x"]) "x"
          = Return [1%Q]) as Hbefore by reflexivity.
  split; [exact Hbefore|].
  exact (start_then_stop_adds_one_sample 5%Q 9%Q "x"
           (snapshot_of [StageStart 1%Q "x"; StageStop 2%Q "x"]) [1%Q]
           (or_intror Hbefore)).
Defined.

(** X2 for the stages [total] and [engine_forward]. *)
Lemma calls_on_a_stage_leave_other_stages_total :
  "engine_forward" ≠ "total"
  ∧ InferenceTimer.stage_times
      (InferenceTimer.start 3%Q "engine_forward"
         (snapshot_of [StageStart 1%Q "total"; StageStop 2%Q "total"])).1 "total"
    = InferenceTimer.stage_times
        (snapshot_of [StageStart 1%Q "total"; StageStop 2%Q "total"]) "total".
Proof.
  assert ("engine_forward" ≠ "total") as Hne by discriminate.
  split; [exact Hne|].
  exact (proj1 (calls_on_a_stage_leave_other_stages 3%Q "engine_forward" "total"
                  (snapshot_of [StageStart 1%Q "total"; StageStop 2%Q "total"])
                  Hne)).
Defined.

(** X3 on a timer with an open start of [x]: a second [start] raises. *)
Lemma start_opens_or_raises_open :
  timer_wf (InferenceTimer.start 1%Q "x" InferenceTimer.init).1
  ∧ unmatched_starts (InferenceTimer.start 1%Q "x" InferenceTimer.init).1 "x" ≠ 0
  ∧ InferenceTimer.start 2%Q "x" (InferenceTimer.start 1%Q "x" InferenceTimer.init).1
    = ((InferenceTimer.start 1%Q "x" InferenceTimer.init).1, Raise ValueError).
Proof.
  assert (timer_wf (InferenceTimer.start 1%Q "x" InferenceTimer.init).1) as Hwf
    by (apply (bool_decide_unpack _); vm_compute; exact I).
  assert (unmatched_starts (InferenceTimer.start 1%Q "x" InferenceTimer.init).1 "x"
          ≠ 0) as Hopen by (vm_compute; discriminate).
  split; [exact Hwf|]. split; [exact Hopen|].
  exact (proj2 (start_opens_or_raises 2%Q "x"
                  (InferenceTimer.start 1%Q "x" InferenceTimer.init).1 Hwf) Hopen).
Defined.

(** X6 on a timer with one completed duration of [x]. *)
Lemma stage_average_time_returns_iff_closed_one :
  timer_wf (snapshot_of [StageStart 1%Q "x"; StageStop 2%Q "x"])
  ∧ ((∃ v, InferenceTimer.stage_average_time
             (snapshot_of [StageStart 1%Q "x"; StageStop 2%Q "x"]) "x" = Return v)
     ↔ InferenceTimer.has_stage
         (snapshot_of [StageStart 1%Q "x"; StageStop 2%Q "x"]) "x" = true
       ∧ unmatched_starts
           (snapshot_of [StageStart 1%Q "x"; StageStop 2%Q "x"]) "x" = 0).
Proof.
  assert (timer_wf (snapshot_of [StageStart 1%Q "x"; StageStop 2%Q "x"])) as Hwf
    by (apply (bool_decide_unpack _); vm_compute; exact I).
  split; [exact Hwf|].
  exact (proj1 (stage_average_time_returns_iff_closed
                  (snapshot_of [StageStart 1%Q "x"; StageStop 2%Q "x"]) "x" Hwf)).
Defined.

(** X7 on a timer with the durations 1 and 3 of [x]. *)
Lemma timer_times_of_balanced_two :
  timer_wf (snapshot_of [StageStart 1%Q "x"; StageStop 2%Q "x";
                         StageStart 3%Q "x"; StageStop 6%Q "x"])
  ∧ balanced (snapshot_of [StageStart 1%Q "x"; StageStop 2%Q "x";
                           StageStart 3%Q "x"; StageStop 6%Q "x"])
  ∧ ∃ averages,
      InferenceTimer.times
        (snapshot_of [StageStart 1%Q "x"; StageStop 2%Q "x";
                      StageStart 3%Q "x"; StageStop 6%Q "x"]) = Return averages.
Proof.
  assert (timer_wf (snapshot_of [StageStart 1%Q "x"; StageStop 2%Q "x";
                                 StageStart 3%Q "x"; StageStop 6%Q "x"])) as Hwf
    by (apply (bool_decide_unpack _); vm_compute; exact I).
  assert (balanced (snapshot_of [StageStart 1%Q "x"; StageStop 2%Q "x";
                                 StageStart 3%Q "x"; StageStop 6%Q "x"])) as Hb
    by (apply (bool_decide_unpack _); vm_compute; exact I).
  split; [exact Hwf|]. split; [exact Hb|].
  destruct (timer_times_of_balanced _ Hwf Hb) as (durations & averages & _ & Ht & _).
  exists averages. exact Ht.
Defined.

(** X8 on a timer with a closed stage [x] and an open stage [y]. *)
Lemma timer_times_raise_while_a_stage_is_open_nested :
  timer_wf (snapshot_of [StageStart 1%Q "x"; StageStop 2%Q "x"; StageStart 3%Q "y"])
  ∧ unmatched_starts
      (snapshot_of [StageStart 1%Q "x"; StageStop 2%Q "x"; StageStart 3%Q "y"]) "y"
    ≠ 0
  ∧ InferenceTimer.all_times
      (snapshot_of [StageStart 1%Q "x"; StageStop 2%Q "x"; StageStart 3%Q "y"])
    = Raise ValueError
  ∧ InferenceTimer.times
      (snapshot_of [StageStart 1%Q "x"; StageStop 2%Q "x"; StageStart 3%Q "y"])
    = Raise ValueError.
Proof.
  assert (timer_wf (snapshot_of [StageStart 1%Q "x"; StageStop 2%Q "x";
                                 StageStart 3%Q "y"])) as Hwf
    by (apply (bool_decide_unpack _); vm_compute; exact I).
  assert (unmatched_starts
            (snapshot_of [StageStart 1%Q "x"; StageStop 2%Q "x"; StageStart 3%Q "y"])
            "y" ≠ 0) as Hopen by (vm_compute; discriminate).
  split; [exact Hwf|]. split; [exact Hopen|].
  exact (timer_times_raise_while_a_stage_is_open _ "y" Hwf Hopen).
Defined.

(** X9 on [demo_pipeline] after one more [start_inference_stage]. *)
Lemma pipeline_times_raise_while_a_stage_is_open_demo :
  pipeline_wf (start_inference_stage 20%Q "y" demo_pipeline).1
  ∧ snapshot_in_use (start_inference_stage 20%Q "y" demo_pipeline).1
    ∈ _timers (start_inference_stage 20%Q "y" demo_pipeline).1
  ∧ unmatched_starts
      (snapshot_in_use (start_inference_stage 20%Q "y" demo_pipeline).1) "y" ≠ 0
  ∧ all_times (start_inference_stage 20%Q "y" demo_pipeline).1 = Raise ValueError
  ∧ times (start_inference_stage 20%Q "y" demo_pipeline).1 = Raise ValueError.
Proof.
  assert (pipeline_wf (start_inference_stage 20%Q "y" demo_pipeline).1) as Hwf
    by (apply (bool_decide_unpack _); vm_compute; exact I).
  assert (snapshot_in_use (start_inference_stage 20%Q "y" demo_pipeline).1
          ∈ _timers (start_inference_stage 20%Q "y" demo_pipeline).1) as Hin
    by (vm_compute; do 2 right; left).
  assert (unmatched_starts
            (snapshot_in_use (start_inference_stage 20%Q "y" demo_pipeline).1) "y"
          ≠ 0) as Hopen by (vm_compute; discriminate).
  split; [exact Hwf|]. split; [exact Hin|]. split; [exact Hopen|].
  exact (pipeline_times_raise_while_a_stage_is_open _ _ "y" Hwf Hin Hopen).
Defined.

(** X10 on a pipeline timer with the one snapshot of the durations 1 and 3. *)
Lemma pipeline_times_of_one_snapshot_two :
  balanced (snapshot_of [StageStart 1%Q "x"; StageStop 2%Q "x";
                         StageStart 3%Q "x"; StageStop 6%Q "x"])
  ∧ times (mk false true [snapshot_of [StageStart 1%Q "x"; StageStop 2%Q "x";
                                       StageStart 3%Q "x"; StageStop 6%Q "x"]])
    = InferenceTimer.times
        (snapshot_of [StageStart 1%Q "x"; StageStop 2%Q "x";
                      StageStart 3%Q "x"; StageStop 6%Q "x"]).
Proof.
  assert (balanced (snapshot_of [StageStart 1%Q "x"; StageStop 2%Q "x";
                                 StageStart 3%Q "x"; StageStop 6%Q "x"])) as Hb
    by (apply (bool_decide_unpack _); vm_compute; exact I).
  split; [exact Hb|].
  exact (pipeline_times_of_one_snapshot (mk false true [_]) _ eq_refl Hb).
Defined.

(** X11 on a fresh single-inference pipeline timer. *)
Lemma single_inference_keeps_one_snapshot_fresh :
  _multi_inference (@init Q true false) = false
  ∧ length (_timers (@init Q true false)) ≤ 1
  ∧ length (_timers (run pipeline_step
                       [StartStage 1%Q "x"; StopStage 2%Q "x"; Reset;
                        StartStage 3%Q "x"; Reset; Reset]
                       (init true false)).1) ≤ 1.
Proof.
  assert (length (_timers (@init Q true false)) ≤ 1) as Hlen by (cbn; lia).
  split; [reflexivity|]. split; [exact Hlen|].
  exact (single_inference_keeps_one_snapshot _ (init true false) eq_refl Hlen).
Defined.

(** X12 on [demo_pipeline]: the snapshot of the first round stays. *)
Lemma earlier_snapshots_are_frozen_demo :
  _multi_inference demo_pipeline = true
  ∧ _timers demo_pipeline !! 1
    = Some (snapshot_of [StageStart 1%Q "x"; StageStop 2%Q "x";
                         StageStart 3%Q "x"; StageStop 6%Q "x"])
  ∧ 2 < length (_timers demo_pipeline)
  ∧ _timers (run pipeline_step [StartStage 20%Q "x"; Reset; StopStage 21%Q "x"]
                 demo_pipeline).1 !! 1
    = Some (snapshot_of [StageStart 1%Q "x"; StageStop 2%Q "x";
                         StageStart 3%Q "x"; StageStop 6%Q "x"]).
Proof.
  assert (_timers demo_pipeline !! 1
          = Some (snapshot_of [StageStart 1%Q "x"; StageStop 2%Q "x";
                               StageStart 3%Q "x"; StageStop 6%Q "x"])) as Hi
    by reflexivity.
  assert (2 < length (_timers demo_pipeline)) as Hlt by (vm_compute; lia).
  split; [reflexivity|]. split; [exact Hi|]. split; [exact Hlt|].
  exact (earlier_snapshots_are_frozen _ demo_pipeline 1 _ eq_refl Hi Hlt).
Defined.

(** X13 on a fresh enabled pipeline timer. *)
Lemma stage_calls_act_on_the_snapshot_in_use_fresh :
  _enabled (@init Q true false) = true
  ∧ [StageStart 1%Q "x"; StageStop 2%Q "x"] ≠ []
  ∧ current_inference
      (run pipeline_step (on_pipeline <$> [StageStart 1%Q "x"; StageStop 2%Q "x"])
           (init true false)).1
    = Some (run timer_step (on_inference <$> [StageStart 1%Q "x"; StageStop 2%Q "x"])
                (snapshot_in_use (init true false))).1.
Proof.
  assert ([StageStart 1%Q "x"; StageStop 2%Q "x"] ≠ []) as Hne by discriminate.
  split; [reflexivity|]. split; [exact Hne|].
  exact (proj1 (proj2 (stage_calls_act_on_the_snapshot_in_use
                         [StageStart 1%Q "x"; StageStop 2%Q "x"]
                         (init true false) eq_refl Hne))).
Defined.

(** X15 on a single-inference pipeline timer with one recorded snapshot. *)
Lemma single_inference_reset_forgets_timings_one :
  _enabled (mk false true [snapshot_of [StageStart 1%Q "x"; StageStop 2%Q "x"]])
  = true
  ∧ _multi_inference
      (mk false true [snapshot_of [StageStart 1%Q "x"; StageStop 2%Q "x"]]) = false
  ∧ length (_timers
      (mk false true [snapshot_of [StageStart 1%Q "x"; StageStop 2%Q "x"]])) ≤ 1
  ∧ times (reset
      (mk false true [snapshot_of [StageStart 1%Q "x"; StageStop 2%Q "x"]])).1
    = Return ∅.
Proof.
  assert (length (_timers
            (mk false true [snapshot_of [StageStart 1%Q "x"; StageStop 2%Q "x"]]))
          ≤ 1) as Hlen by (cbn; lia).
  split; [reflexivity|]. split; [reflexivity|]. split; [exact Hlen|].
  exact (proj2 (proj2 (single_inference_reset_forgets_timings
                         (mk false true [_]) eq_refl eq_refl Hlen))).
Defined.

(** X16 on [demo_pipeline]. *)
Lemma multi_inference_reset_keeps_the_aggregate_demo :
  _enabled demo_pipeline = true
  ∧ _multi_inference demo_pipeline = true
  ∧ times (reset demo_pipeline).1 = times demo_pipeline.
Proof.
  split; [reflexivity|]. split; [reflexivity|].
  exact (proj2 (proj2 (multi_inference_reset_keeps_the_aggregate
                         demo_pipeline eq_refl eq_refl))).
Defined.
End further_concrete_runs.
